(** * playful-puzzles: the quiz session engine and the dashboard metrics

    A shallow embedding of [src/pages/Index.tsx] (the session engine),
    [src/components/Dashboard.tsx] (metrics, catalog filter, start
    validation) and [QuizController] (the navigation bar), followed by the
    properties of the specification that can be settled on them.

    JavaScript numbers that hold indices, counts and ids are integers [Z];
    [number | null] is [option Z]; arrays are lists; a [Set<number>] is a
    [gset Z]; a thrown [TypeError] is the [None] outcome of a computation. *)

From Stdlib Require Import ZArith Lia.
From stdpp Require Import base option list gmap strings sorting.

Local Open Scope Z_scope.

(** ** Data model ([src/types/quiz.ts] is read through its uses) *)

Module Question.
(** [explanation] and [media] only feed the rendering and are left out. *)
Record t := mk {
  id : Z;
  qbankId : string;
  question : string;
  options : list string;
  correctAnswer : Z;
  isMarked : bool
}.
End Question.

Module QBank.
Record t := mk {
  id : string;
  name : string;
  description : string;
  questions : list Question.t
}.
End QBank.

Module QuestionAttempt.
Record t := mk {
  questionId : Z;
  selectedAnswer : option Z;
  isCorrect : bool
}.
End QuestionAttempt.

Module QuizHistory.
(** Modelled from the spec: the declaration of [QuizHistory] in
    [src/types/quiz.ts] is not among the sources.  The fields are those
    the sources write ([Index.tsx]: id, date, score, totalQuestions,
    qbankId) and read ([Dashboard.tsx]: questionAttempts, score,
    totalQuestions, date).  An object literal that does not mention
    [questionAttempts] has it [undefined], here [None].  [id] and [date]
    are both renderings of the clock at emission and are kept as that
    instant. *)
Record t := mk {
  id : Z;
  date : Z;
  score : Z;
  totalQuestions : Z;
  qbankId : string;
  questionAttempts : option (list QuestionAttempt.t)
}.
End QuizHistory.

Module QuestionFilter.
Record t := mk {
  unused : bool;
  used : bool;
  incorrect : bool;
  correct : bool;
  marked : bool;
  omitted : bool
}.
End QuestionFilter.

(** ** JavaScript helpers *)

(** [xs[i]]: [undefined] outside the array. *)
Definition index {A} (xs : list A) (i : Z) : option A :=
  if i <? 0 then None else xs !! Z.to_nat i.

(** [xs.length] *)
Definition len {A} (xs : list A) : Z := Z.of_nat (length xs).

(** [xs.slice(0, n)] for an integer [n]: a negative end counts from the
    back of the array. *)
Definition slice0 {A} (n : Z) (xs : list A) : list A :=
  if n <? 0 then take (Z.to_nat (Z.max (len xs + n) 0)) xs
  else take (Z.to_nat n) xs.

(** [x || d] for [x : number | null]: [null] and [0] are falsy. *)
Definition or_else (x : option Z) (d : Z) : Z :=
  match x with
  | Some n => if n =? 0 then d else n
  | None => d
  end.

(** ** The session engine: [src/pages/Index.tsx] *)

Module Index.

(** The [useState] cells of the component. *)
Record State := mkState {
  currentQuestionIndex : Z;
  score : Z;
  showScore : bool;
  selectedAnswer : option Z;
  isAnswered : bool;
  inQuiz : bool;
  currentQuestions : list Question.t;
  tutorMode : bool;
  showExplanation : bool;
  isPaused : bool;
  timerEnabled : bool;
  timePerQuestion : Z;
  questionTimer : option Z
}.

(** The state of the first render. *)
Definition initial : State :=
  {| currentQuestionIndex := 0; score := 0; showScore := false;
     selectedAnswer := None; isAnswered := false; inQuiz := false;
     currentQuestions := []; tutorMode := false; showExplanation := false;
     isPaused := false; timerEnabled := false; timePerQuestion := 60;
     questionTimer := None |}.

(** A pending [setTimeout].  Its callback is a closure of the render in
    which [startQuestionTimer] ran: it reads [isAnswered], [isPaused] and,
    through [handleAnswerTimeout] and [proceedToNextQuestion],
    [tutorMode], [currentQuestionIndex], [currentQuestions], [score],
    [timerEnabled] of that render, not of the render current when it
    fires. *)
Record Timeout := mkTimeout {
  handle : Z;
  delay : Z;
  closure : State
}.

(** What a handler acts on: the state cells with the updates queued so
    far applied, the pending timeouts, the records handed to
    [onQuizComplete], and the clock. *)
Record Sys := mkSys {
  state : State;
  timers : list Timeout;
  nextHandle : Z;
  emitted : list QuizHistory.t;
  now : Z
}.

(** A handler body: it may throw ([None]); what it did before is kept. *)
Definition M (A : Type) : Type := Sys -> option A * Sys.

#[export] Instance M_ret : MRet M := fun A (a : A) w => (Some a, w).
#[export] Instance M_bind : MBind M := fun A B (f : A -> M B) (m : M A) w =>
  match m w with
  | (Some a, w') => f a w'
  | (None, w') => (None, w')
  end.

Definition skip : M unit := mret tt.

(** Property access on a possibly [undefined] value. *)
Definition defined {A} (x : option A) : M A := fun w => (x, w).

Definition modify (f : State -> State) : M unit := fun w =>
  (Some tt, {| state := f (state w); timers := timers w;
               nextHandle := nextHandle w; emitted := emitted w;
               now := now w |}).

(** The setters; a functional update [setX(prev => e)] reads the queued
    value, a handler's own reads come from its render (its closure). *)
Definition setCurrentQuestionIndex (f : Z -> Z) : M unit :=
  modify (fun s =>
    mkState (f (currentQuestionIndex s)) (score s) (showScore s)
      (selectedAnswer s) (isAnswered s) (inQuiz s) (currentQuestions s)
      (tutorMode s) (showExplanation s) (isPaused s) (timerEnabled s)
      (timePerQuestion s) (questionTimer s)).
Definition setScore (f : Z -> Z) : M unit :=
  modify (fun s =>
    mkState (currentQuestionIndex s) (f (score s)) (showScore s)
      (selectedAnswer s) (isAnswered s) (inQuiz s) (currentQuestions s)
      (tutorMode s) (showExplanation s) (isPaused s) (timerEnabled s)
      (timePerQuestion s) (questionTimer s)).
Definition setShowScore (b : bool) : M unit :=
  modify (fun s =>
    mkState (currentQuestionIndex s) (score s) b
      (selectedAnswer s) (isAnswered s) (inQuiz s) (currentQuestions s)
      (tutorMode s) (showExplanation s) (isPaused s) (timerEnabled s)
      (timePerQuestion s) (questionTimer s)).
Definition setSelectedAnswer (a : option Z) : M unit :=
  modify (fun s =>
    mkState (currentQuestionIndex s) (score s) (showScore s)
      a (isAnswered s) (inQuiz s) (currentQuestions s)
      (tutorMode s) (showExplanation s) (isPaused s) (timerEnabled s)
      (timePerQuestion s) (questionTimer s)).
Definition setIsAnswered (b : bool) : M unit :=
  modify (fun s =>
    mkState (currentQuestionIndex s) (score s) (showScore s)
      (selectedAnswer s) b (inQuiz s) (currentQuestions s)
      (tutorMode s) (showExplanation s) (isPaused s) (timerEnabled s)
      (timePerQuestion s) (questionTimer s)).
Definition setInQuiz (b : bool) : M unit :=
  modify (fun s =>
    mkState (currentQuestionIndex s) (score s) (showScore s)
      (selectedAnswer s) (isAnswered s) b (currentQuestions s)
      (tutorMode s) (showExplanation s) (isPaused s) (timerEnabled s)
      (timePerQuestion s) (questionTimer s)).
Definition setCurrentQuestions (qs : list Question.t) : M unit :=
  modify (fun s =>
    mkState (currentQuestionIndex s) (score s) (showScore s)
      (selectedAnswer s) (isAnswered s) (inQuiz s) qs
      (tutorMode s) (showExplanation s) (isPaused s) (timerEnabled s)
      (timePerQuestion s) (questionTimer s)).
Definition setTutorMode (b : bool) : M unit :=
  modify (fun s =>
    mkState (currentQuestionIndex s) (score s) (showScore s)
      (selectedAnswer s) (isAnswered s) (inQuiz s) (currentQuestions s)
      b (showExplanation s) (isPaused s) (timerEnabled s)
      (timePerQuestion s) (questionTimer s)).
Definition setShowExplanation (b : bool) : M unit :=
  modify (fun s =>
    mkState (currentQuestionIndex s) (score s) (showScore s)
      (selectedAnswer s) (isAnswered s) (inQuiz s) (currentQuestions s)
      (tutorMode s) b (isPaused s) (timerEnabled s)
      (timePerQuestion s) (questionTimer s)).
Definition setIsPaused (f : bool -> bool) : M unit :=
  modify (fun s =>
    mkState (currentQuestionIndex s) (score s) (showScore s)
      (selectedAnswer s) (isAnswered s) (inQuiz s) (currentQuestions s)
      (tutorMode s) (showExplanation s) (f (isPaused s)) (timerEnabled s)
      (timePerQuestion s) (questionTimer s)).
Definition setTimerEnabled (b : bool) : M unit :=
  modify (fun s =>
    mkState (currentQuestionIndex s) (score s) (showScore s)
      (selectedAnswer s) (isAnswered s) (inQuiz s) (currentQuestions s)
      (tutorMode s) (showExplanation s) (isPaused s) b
      (timePerQuestion s) (questionTimer s)).
Definition setTimePerQuestion (t : Z) : M unit :=
  modify (fun s =>
    mkState (currentQuestionIndex s) (score s) (showScore s)
      (selectedAnswer s) (isAnswered s) (inQuiz s) (currentQuestions s)
      (tutorMode s) (showExplanation s) (isPaused s) (timerEnabled s)
      t (questionTimer s)).
Definition setQuestionTimer (t : option Z) : M unit :=
  modify (fun s =>
    mkState (currentQuestionIndex s) (score s) (showScore s)
      (selectedAnswer s) (isAnswered s) (inQuiz s) (currentQuestions s)
      (tutorMode s) (showExplanation s) (isPaused s) (timerEnabled s)
      (timePerQuestion s) t).

(** [setTimeout(callback, ms)]: the callback is [timerCallback] below,
    closed over the render [c]. *)
Definition setTimeout (c : State) (ms : Z) : M Z := fun w =>
  (Some (nextHandle w),
   {| state := state w;
      timers := timers w ++ [mkTimeout (nextHandle w) ms c];
      nextHandle := nextHandle w + 1; emitted := emitted w;
      now := now w |}).

Definition clearTimeout (h : Z) : M unit := fun w =>
  (Some tt,
   {| state := state w;
      timers := filter (fun t => handle t ≠ h) (timers w);
      nextHandle := nextHandle w; emitted := emitted w; now := now w |}).

(** [Date.now()] *)
Definition dateNow : M Z := fun w => (Some (now w), w).

(** [onQuizComplete?.(history)]: the host appends the record to its log. *)
Definition onQuizComplete (h : QuizHistory.t) : M unit := fun w =>
  (Some tt,
   {| state := state w; timers := timers w; nextHandle := nextHandle w;
      emitted := emitted w ++ [h]; now := now w |}).

(** In every handler below [c] is the render the handler belongs to. *)

Definition startQuestionTimer (c : State) : M unit :=
  match questionTimer c with
  | Some t => clearTimeout t
  | None => skip
  end ;;
  timer ← setTimeout c (timePerQuestion c * 1000);
  setQuestionTimer (Some timer).

Definition proceedToNextQuestion (c : State) (optionIndex : Z) : M unit :=
  if currentQuestionIndex c =? len (currentQuestions c) - 1 then
    stamp ← dateNow;
    current ← defined (index (currentQuestions c) (currentQuestionIndex c));
    first ← defined (index (currentQuestions c) 0);
    onQuizComplete
      {| QuizHistory.id := stamp;
         QuizHistory.date := stamp;
         QuizHistory.score :=
           score c +
           (if optionIndex =? Question.correctAnswer current then 1 else 0);
         QuizHistory.totalQuestions := len (currentQuestions c);
         QuizHistory.qbankId := Question.qbankId first;
         QuizHistory.questionAttempts := None |} ;;
    setShowScore true
  else
    setCurrentQuestionIndex (fun prev => prev + 1) ;;
    setSelectedAnswer None ;;
    setIsAnswered false ;;
    if timerEnabled c then startQuestionTimer c else skip.

Definition handleAnswerTimeout (c : State) : M unit :=
  setIsAnswered true ;;
  if tutorMode c then setShowExplanation true
  else proceedToNextQuestion c (-1).

(** The callback given to [setTimeout] by [startQuestionTimer]. *)
Definition timerCallback (c : State) : M unit :=
  if negb (isAnswered c) && negb (isPaused c) then handleAnswerTimeout c
  else skip.

Definition handleAnswerClick (c : State) (optionIndex : Z) : M unit :=
  if isAnswered c || isPaused c then skip
  else
    setSelectedAnswer (Some optionIndex) ;;
    setIsAnswered true ;;
    current ← defined (index (currentQuestions c) (currentQuestionIndex c));
    (if optionIndex =? Question.correctAnswer current
     then setScore (fun prev => prev + 1) else skip) ;;
    if tutorMode c then setShowExplanation true
    else proceedToNextQuestion c optionIndex.

Definition handleRestart (c : State) : M unit :=
  match questionTimer c with
  | Some t => clearTimeout t
  | None => skip
  end ;;
  setInQuiz false ;;
  setCurrentQuestionIndex (fun _ => 0) ;;
  setScore (fun _ => 0) ;;
  setShowScore false ;;
  setSelectedAnswer None ;;
  setIsAnswered false ;;
  setTutorMode false ;;
  setIsPaused (fun _ => false).

Definition handleQuit (c : State) : M unit :=
  stamp ← dateNow;
  first ← defined (index (currentQuestions c) 0);
  onQuizComplete
    {| QuizHistory.id := stamp;
       QuizHistory.date := stamp;
       QuizHistory.score := score c;
       QuizHistory.totalQuestions := len (currentQuestions c);
       QuizHistory.qbankId := Question.qbankId first;
       QuizHistory.questionAttempts := None |} ;;
  handleRestart c.

Definition handlePause (c : State) : M unit :=
  setIsPaused negb ;;
  match questionTimer c with
  | Some t => clearTimeout t
  | None => skip
  end.

Definition handleContinue (c : State) : M unit :=
  setShowExplanation false ;;
  proceedToNextQuestion c (or_else (selectedAnswer c) 0).

Inductive Direction := prev | next.

Definition isPrev (d : Direction) : bool :=
  match d with prev => true | next => false end.
Definition isNext (d : Direction) : bool :=
  match d with prev => false | next => true end.

Definition handleQuizNavigation (c : State) (direction : Direction) : M unit :=
  if isPrev direction && (currentQuestionIndex c >? 0) then
    setCurrentQuestionIndex (fun prev => prev - 1) ;;
    setSelectedAnswer None ;;
    setIsAnswered false ;;
    if timerEnabled c then startQuestionTimer c else skip
  else if isNext direction
          && (currentQuestionIndex c <? len (currentQuestions c) - 1) then
    proceedToNextQuestion c (or_else (selectedAnswer c) (-1))
  else skip.

(** The "Previous" button of the explanation panel:
    [setCurrentQuestionIndex((prev) => Math.max(0, prev - 1))]. *)
Definition explanationPrevious (c : State) : M unit :=
  setCurrentQuestionIndex (fun prev => Z.max 0 (prev - 1)).

Section Start.
(** The catalog imported from [../data/questions]. *)
Variable qbanks : list QBank.t.
(** The outcome of [.sort(() => Math.random() - 0.5)] on a copy of the
    bank's questions: some rearrangement, chosen by the random draws. *)
Variable sortRandom : list Question.t -> list Question.t.

Definition handleStartQuiz (c : State) (qbankId : string)
    (questionCount : Z) (isTutorMode withTimer : bool) (timeLimit : Z)
    : M unit :=
  match List.find (fun qb => String.eqb (QBank.id qb) qbankId) qbanks with
  | None => skip
  | Some selectedQBank =>
      let shuffledQuestions :=
        slice0 questionCount (sortRandom (QBank.questions selectedQBank)) in
      setCurrentQuestions shuffledQuestions ;;
      setCurrentQuestionIndex (fun _ => 0) ;;
      setScore (fun _ => 0) ;;
      setShowScore false ;;
      setSelectedAnswer None ;;
      setIsAnswered false ;;
      setTutorMode isTutorMode ;;
      setTimerEnabled withTimer ;;
      setTimePerQuestion timeLimit ;;
      setInQuiz true ;;
      setIsPaused (fun _ => false) ;;
      if withTimer then startQuestionTimer c else skip
  end.
End Start.

(** *** Events of the component *)

Inductive Event :=
| StartQuiz (sortRandom : list Question.t -> list Question.t)
    (qbankId : string) (questionCount : Z) (isTutorMode withTimer : bool)
    (timeLimit : Z)
| AnswerClick (optionIndex : Z)
| Navigate (direction : Direction)
| Pause
| Quit
| Continue
| Restart
| ExplanationPrevious
| TimerFires (h : Z).

(** A timeout that is still pending leaves the pending set and runs its
    callback, with the closure it was created with. *)
Definition fire (h : Z) : M unit := fun w =>
  match List.find (fun t => handle t =? h) (timers w) with
  | None => (Some tt, w)
  | Some t => (clearTimeout h ;; timerCallback (closure t)) w
  end.

Section Run.
Variable qbanks : list QBank.t.

(** The handler an event invokes, as a closure of the render [c]. *)
Definition dispatch (e : Event) (c : State) : M unit :=
  match e with
  | StartQuiz sortRandom qbankId questionCount isTutorMode withTimer timeLimit =>
      handleStartQuiz qbanks sortRandom c qbankId questionCount isTutorMode
        withTimer timeLimit
  | AnswerClick optionIndex => handleAnswerClick c optionIndex
  | Navigate direction => handleQuizNavigation c direction
  | Pause => handlePause c
  | Quit => handleQuit c
  | Continue => handleContinue c
  | Restart => handleRestart c
  | ExplanationPrevious => explanationPrevious c
  | TimerFires h => fire h
  end.

(** One event: the handler of the current render runs to its end (or to
    its exception), then the queued updates are the next render. *)
Definition step (e : Event) (w : Sys) : Sys := snd (dispatch e (state w) w).

Fixpoint run (es : list Event) (w : Sys) : Sys :=
  match es with
  | [] => w
  | e :: es => run es (step e w)
  end.

(** What the rendered page lets the user do: the dashboard while
    [!inQuiz], the score card while [showScore], otherwise the question
    page with its [disabled] attributes (a page whose current question is
    [undefined] does not render). *)
Definition offered (w : Sys) (e : Event) : bool :=
  let s := state w in
  match e with
  | TimerFires h => bool_decide (h ∈ handle <$> timers w)
  | StartQuiz _ _ _ _ _ _ => negb (inQuiz s)
  | Restart => inQuiz s && showScore s
  | _ =>
      inQuiz s && negb (showScore s) &&
      match index (currentQuestions s) (currentQuestionIndex s) with
      | None => false
      | Some currentQuestion =>
          match e with
          | AnswerClick i =>
              (0 <=? i) && (i <? len (Question.options currentQuestion))
              && negb (isAnswered s || isPaused s)
          | Navigate prev => negb (currentQuestionIndex s =? 0)
          | Navigate next =>
              negb ((currentQuestionIndex s =? len (currentQuestions s) - 1)
                    || negb (isAnswered s))
          | Continue => showExplanation s
          | ExplanationPrevious =>
              showExplanation s && negb (currentQuestionIndex s =? 0)
          | _ => true
          end
      end
  end.

Fixpoint feasible (es : list Event) (w : Sys) : bool :=
  match es with
  | [] => true
  | e :: es => offered w e && feasible es (step e w)
  end.
End Run.

(** The component when it is mounted. *)
Definition boot (t : Z) : Sys :=
  {| state := initial; timers := []; nextHandle := 1; emitted := [];
     now := t |}.

End Index.

(** ** The navigation bar: [QuizController] *)

Module QuizController.

(** The props the buttons read; the callbacks are arguments of the clicks. *)
Record Props := mkProps {
  currentQuestionIndex : Z;
  totalQuestions : Z;
  isAnswered : bool;
  isPaused : bool;
  isMarked : bool;
  timerEnabled : bool;
  timeLimit : Z
}.

(** [disabled={currentQuestionIndex === 0 || timerEnabled}] *)
Definition previousDisabled (p : Props) : bool :=
  (currentQuestionIndex p =? 0) || timerEnabled p.

(** [disabled={currentQuestionIndex === totalQuestions - 1 || !isAnswered}] *)
Definition nextDisabled (p : Props) : bool :=
  (currentQuestionIndex p =? totalQuestions p - 1) || negb (isAnswered p).

(** A click on a disabled button dispatches nothing. *)
Definition clickPrevious (p : Props)
    (onNavigate : Index.Direction -> Index.M unit) : Index.M unit :=
  if previousDisabled p then Index.skip else onNavigate Index.prev.

Definition clickNext (p : Props)
    (onNavigate : Index.Direction -> Index.M unit) : Index.M unit :=
  if nextDisabled p then Index.skip else onNavigate Index.next.

(** The controller fed from the session's state cells of the same names;
    [isMarked] is the current question's flag. *)
Definition propsOf (c : Index.State) : Props :=
  {| currentQuestionIndex := Index.currentQuestionIndex c;
     totalQuestions := len (Index.currentQuestions c);
     isAnswered := Index.isAnswered c;
     isPaused := Index.isPaused c;
     isMarked :=
       match index (Index.currentQuestions c) (Index.currentQuestionIndex c) with
       | Some q => Question.isMarked q
       | None => false
       end;
     timerEnabled := Index.timerEnabled c;
     timeLimit := Index.timePerQuestion c |}.

(** The controller's Next wired to the session's navigation handler; its
    gate is the one of the page's own Next button
    ([disabled={currentQuestionIndex === currentQuestions.length - 1 ||
    !isAnswered}]). *)
Definition navigateNext (c : Index.State) : Index.M unit :=
  clickNext (propsOf c)
    (Index.handleQuizNavigation c).

End QuizController.

(** ** The dashboard: [src/components/Dashboard.tsx] *)

Module Dashboard.

(** The id sets [metrics] fills while it scans the history. *)
Record Sets := mkSets {
  seenQuestionIds : gset Z;
  correctQuestionIds : gset Z;
  incorrectQuestionIds : gset Z;
  omittedQuestionIds : gset Z
}.

Definition noSets : Sets := mkSets ∅ ∅ ∅ ∅.

(** The body of [quiz.questionAttempts.forEach(attempt => ...)]. *)
Definition scanAttempt (acc : Sets) (attempt : QuestionAttempt.t) : Sets :=
  let i := QuestionAttempt.questionId attempt in
  let seen := {[ i ]} ∪ seenQuestionIds acc in
  match QuestionAttempt.selectedAnswer attempt with
  | None =>
      mkSets seen (correctQuestionIds acc)
        ({[ i ]} ∪ incorrectQuestionIds acc) ({[ i ]} ∪ omittedQuestionIds acc)
  | Some _ =>
      if QuestionAttempt.isCorrect attempt then
        mkSets seen ({[ i ]} ∪ correctQuestionIds acc)
          (incorrectQuestionIds acc) (omittedQuestionIds acc)
      else
        mkSets seen (correctQuestionIds acc)
          ({[ i ]} ∪ incorrectQuestionIds acc) (omittedQuestionIds acc)
  end.

(** [quizHistory.forEach(quiz => quiz.questionAttempts.forEach(...))]:
    a record without [questionAttempts] makes the scan throw. *)
Fixpoint scanHistory (quizHistory : list QuizHistory.t) (acc : Sets)
    : option Sets :=
  match quizHistory with
  | [] => Some acc
  | quiz :: rest =>
      attempts ← QuizHistory.questionAttempts quiz;
      scanHistory rest (foldl scanAttempt acc attempts)
  end.

(** The nested [forEach] that collects the ids of the marked questions. *)
Definition scanMarked (qbanks : list QBank.t) : gset Z :=
  foldl (fun acc qbank =>
           foldl (fun acc question =>
                    if Question.isMarked question
                    then {[ Question.id question ]} ∪ acc else acc)
                 acc (QBank.questions qbank))
        ∅ qbanks.

Record Metrics := mkMetrics {
  unused : Z;
  used : Z;
  correct : Z;
  incorrect : Z;
  marked : Z;
  omitted : Z
}.

(** [set.size] *)
Definition setSize (s : gset Z) : Z := Z.of_nat (size s).

Definition metrics (qbanks : list QBank.t) (quizHistory : list QuizHistory.t)
    : option Metrics :=
  sets ← scanHistory quizHistory noSets;
  let unusedCount :=
    foldl (fun acc qbank =>
             acc + len (List.filter
                          (fun q => negb (bool_decide
                             (Question.id q ∈ seenQuestionIds sets)))
                          (QBank.questions qbank)))
          0 qbanks in
  let markedQuestionIds :=
    if len quizHistory >? 0 then scanMarked qbanks else ∅ in
  Some {| unused := unusedCount;
          used := setSize (seenQuestionIds sets);
          correct := setSize (correctQuestionIds sets);
          incorrect := setSize (incorrectQuestionIds sets);
          marked := setSize markedQuestionIds;
          omitted := setSize (omittedQuestionIds sets) |}.

(** [Object.values(filters).some(Boolean)] *)
Definition anyFilter (filters : QuestionFilter.t) : bool :=
  QuestionFilter.unused filters || QuestionFilter.used filters
  || QuestionFilter.incorrect filters || QuestionFilter.correct filters
  || QuestionFilter.marked filters || QuestionFilter.omitted filters.

(** [quizHistory.flatMap(quiz => quiz.questionAttempts.filter(attempt =>
    attempt.questionId === question.id))] *)
Fixpoint attemptsOf (quizHistory : list QuizHistory.t) (question : Question.t)
    : option (list QuestionAttempt.t) :=
  match quizHistory with
  | [] => Some []
  | quiz :: rest =>
      all ← QuizHistory.questionAttempts quiz;
      more ← attemptsOf rest question;
      Some (List.filter
              (fun attempt =>
                 QuestionAttempt.questionId attempt =? Question.id question)
              all ++ more)
  end.

Definition isOmittedAttempt (attempt : QuestionAttempt.t) : bool :=
  match QuestionAttempt.selectedAnswer attempt with
  | None => true
  | Some _ => false
  end.

(** The callback of [qbank.questions.filter]. *)
Definition keeps (quizHistory : list QuizHistory.t)
    (filters : QuestionFilter.t) (question : Question.t) : option bool :=
  attempts ← attemptsOf quizHistory question;
  let isUsed := len attempts >? 0 in
  let isCorrect := existsb QuestionAttempt.isCorrect attempts in
  let isIncorrect :=
    existsb (fun attempt => negb (QuestionAttempt.isCorrect attempt)) attempts in
  let isOmitted := existsb isOmittedAttempt attempts in
  Some ((QuestionFilter.unused filters && negb isUsed)
        || (QuestionFilter.used filters && isUsed)
        || (QuestionFilter.correct filters && isCorrect)
        || (QuestionFilter.incorrect filters && isIncorrect)
        || (QuestionFilter.marked filters && Question.isMarked question)
        || (QuestionFilter.omitted filters && isOmitted)).

(** [xs.filter(p)] for a callback that may throw. *)
Fixpoint filterThrowing {A} (p : A -> option bool) (xs : list A)
    : option (list A) :=
  match xs with
  | [] => Some []
  | x :: rest =>
      match p x with
      | Some b =>
          kept ← filterThrowing p rest;
          Some (if b then x :: kept else kept)
      | None => None
      end
  end.

Definition filteredQBanks (qbanks : list QBank.t)
    (quizHistory : list QuizHistory.t) (filters : QuestionFilter.t)
    : option (list QBank.t) :=
  if negb (anyFilter filters) then Some qbanks
  else
    mapped ← mapM (fun qbank =>
                     questions ← filterThrowing (keeps quizHistory filters)
                                   (QBank.questions qbank);
                     Some (QBank.mk (QBank.id qbank) (QBank.name qbank)
                             (QBank.description qbank) questions))
                  qbanks;
    Some (List.filter (fun qbank => len (QBank.questions qbank) >? 0) mapped).

(** The form of the dashboard. *)
Record Controls := mkControls {
  selectedQBank : string;
  questionCount : Z;
  tutorMode : bool;
  timerEnabled : bool;
  timeLimit : Z
}.

(** What a click on "Start Quiz" does: nothing, a toast, or a call of the
    [onStartQuiz] prop. *)
Inductive Outcome :=
| Nothing
| Toast (title description : string)
| OnStartQuiz (qbankId : string) (questionCount : Z)
    (tutorMode timerEnabled : bool) (timeLimit : Z).

(** A non-empty string is truthy. *)
Definition truthy (s : string) : bool := negb (String.eqb s "").

(** [n > xs?.questions.length!]: against [undefined] the comparison is
    [false]. *)
Definition exceeds (n : Z) (found : option QBank.t) : bool :=
  match found with
  | Some qb => n >? len (QBank.questions qb)
  | None => false
  end.

(** [filtered] is the value of [filteredQBanks] in the render clicked on. *)
Definition handleStartQuiz (filtered : list QBank.t) (d : Controls) : Outcome :=
  if truthy (selectedQBank d) && (questionCount d >? 0) then
    if exceeds (questionCount d)
         (List.find (fun qb => String.eqb (QBank.id qb) (selectedQBank d))
            filtered)
    then Toast "Invalid Question Count"
           "The selected number of questions exceeds the available questions in the filtered set."
    else OnStartQuiz (selectedQBank d) (questionCount d) (tutorMode d)
           (timerEnabled d) (timeLimit d)
  else Nothing.

(** [keyof QuestionFilter] *)
Inductive FilterKey :=
| keyUnused | keyUsed | keyIncorrect | keyCorrect | keyMarked | keyOmitted.

(** [filters[key]] *)
Definition filterAt (key : FilterKey) (filters : QuestionFilter.t) : bool :=
  match key with
  | keyUnused => QuestionFilter.unused filters
  | keyUsed => QuestionFilter.used filters
  | keyIncorrect => QuestionFilter.incorrect filters
  | keyCorrect => QuestionFilter.correct filters
  | keyMarked => QuestionFilter.marked filters
  | keyOmitted => QuestionFilter.omitted filters
  end.

(** The update of [toggleFilter]: [prev => ({...prev, [key]: !prev[key]})]. *)
Definition toggleFilter (key : FilterKey) (prev : QuestionFilter.t)
    : QuestionFilter.t :=
  let u := QuestionFilter.unused prev in
  let s := QuestionFilter.used prev in
  let i := QuestionFilter.incorrect prev in
  let c := QuestionFilter.correct prev in
  let m := QuestionFilter.marked prev in
  let o := QuestionFilter.omitted prev in
  match key with
  | keyUnused => QuestionFilter.mk (negb u) s i c m o
  | keyUsed => QuestionFilter.mk u (negb s) i c m o
  | keyIncorrect => QuestionFilter.mk u s (negb i) c m o
  | keyCorrect => QuestionFilter.mk u s i (negb c) m o
  | keyMarked => QuestionFilter.mk u s i c (negb m) o
  | keyOmitted => QuestionFilter.mk u s i c m (negb o)
  end.

End Dashboard.

(** ** Starting a session: the dashboard's button, then the page's handler *)

Section Session.
Variable qbanks : list QBank.t.
Variable sortRandom : list Question.t -> list Question.t.

(** The dashboard receives [onStartQuiz = handleStartQuiz] of the page's
    render [state w]; the result is what the button did and the page
    afterwards. *)
Definition start (filtered : list QBank.t) (d : Dashboard.Controls)
    (w : Index.Sys) : Dashboard.Outcome * Index.Sys :=
  match Dashboard.handleStartQuiz filtered d with
  | Dashboard.OnStartQuiz qbankId questionCount tutor timer limit as o =>
      (o, snd (Index.handleStartQuiz qbanks sortRandom (Index.state w) qbankId
                 questionCount tutor timer limit w))
  | o => (o, w)
  end.
End Session.

(** ** Sample catalogs used to run the code *)

Definition sampleQuestion (i correct : Z) (flag : bool) : Question.t :=
  Question.mk i "bank" "?" ["a"; "b"; "c"] correct flag.

Definition sampleBank (questions : list Question.t) : QBank.t :=
  QBank.mk "bank" "Bank" "" questions.

(** Correct answers at 1, 0, 2. *)
Definition bank3 : QBank.t :=
  sampleBank [sampleQuestion 1 1 false; sampleQuestion 2 0 false;
              sampleQuestion 3 2 false].

Definition bank2 : QBank.t :=
  sampleBank [sampleQuestion 1 1 false; sampleQuestion 2 0 false].

Definition bank5 : QBank.t :=
  sampleBank [sampleQuestion 1 1 false; sampleQuestion 2 0 false;
              sampleQuestion 3 2 false; sampleQuestion 4 1 false;
              sampleQuestion 5 0 false].

(** A draw of the random sort that leaves the order as it is. *)
Definition keepOrder (questions : list Question.t) : list Question.t :=
  questions.

(** A bank whose second question is marked, and the filter "marked". *)
Definition markedBank : QBank.t :=
  sampleBank [sampleQuestion 1 1 false; sampleQuestion 2 0 true].

Definition onlyMarked : QuestionFilter.t :=
  QuestionFilter.mk false false false false true false.

Definition sampleControls (bankId : string) (count : Z) : Dashboard.Controls :=
  Dashboard.mkControls bankId count false false 60.

(** ** The precondition of [start()] in the words of the specification *)

(** "[bankId] must resolve to a non-empty filtered bank;
    1 <= questionCount <= available questions in that bank": the negation,
    on the dashboard's form and the filtered catalog. *)
Definition spec_invalidConfiguration (filtered : list QBank.t)
    (d : Dashboard.Controls) : bool :=
  match List.find (fun qb => String.eqb (QBank.id qb) (Dashboard.selectedQBank d))
          filtered with
  | None => true
  | Some bank =>
      (len (QBank.questions bank) =? 0)
      || (Dashboard.questionCount d <? 1)
      || (len (QBank.questions bank) <? Dashboard.questionCount d)
  end.

(** "surfaced to the caller for display": the dashboard shows a toast. *)
Definition surfaced (o : Dashboard.Outcome) : bool :=
  match o with
  | Dashboard.Toast _ _ => true
  | _ => false
  end.

(** ** The catalog and the history as flat lists *)

(** All questions of the catalog, bank after bank. *)
Definition catalogQuestions (qbanks : list QBank.t) : list Question.t :=
  flat_map QBank.questions qbanks.

Definition hasAttempts (quiz : QuizHistory.t) : Prop :=
  is_Some (QuizHistory.questionAttempts quiz).

(** All attempts of the history, record after record. *)
Definition allAttempts (quizHistory : list QuizHistory.t)
    : list QuestionAttempt.t :=
  flat_map (fun quiz => default [] (QuizHistory.questionAttempts quiz))
    quizHistory.

(** A record with a list of attempts, as the dashboard reads them. *)
Definition sampleRecord (attempts : list QuestionAttempt.t) : QuizHistory.t :=
  QuizHistory.mk 0 0 0 1 "bank" (Some attempts).

(** ** [filterCatalog] in the words of the specification *)

(** "[isCorrect] (derived: false when omitted)". *)
Definition wellFormed (attempt : QuestionAttempt.t) : Prop :=
  QuestionAttempt.selectedAnswer attempt = None ->
  QuestionAttempt.isCorrect attempt = false.

(** A question matches some active filter, membership being that of the
    id sets of the metrics ("the same per-question membership tests used
    in classify"); marked is the question's own flag. *)
Definition spec_matchesAny (sets : Dashboard.Sets) (filters : QuestionFilter.t)
    (question : Question.t) : bool :=
  let i := Question.id question in
  (QuestionFilter.unused filters
   && negb (bool_decide (i ∈ Dashboard.seenQuestionIds sets)))
  || (QuestionFilter.used filters
      && bool_decide (i ∈ Dashboard.seenQuestionIds sets))
  || (QuestionFilter.correct filters
      && bool_decide (i ∈ Dashboard.correctQuestionIds sets))
  || (QuestionFilter.incorrect filters
      && bool_decide (i ∈ Dashboard.incorrectQuestionIds sets))
  || (QuestionFilter.marked filters && Question.isMarked question)
  || (QuestionFilter.omitted filters
      && bool_decide (i ∈ Dashboard.omittedQuestionIds sets)).

(** A bank restricted to the questions that satisfy [keep]. *)
Definition restrictBank (keep : Question.t -> bool) (qbank : QBank.t) : QBank.t :=
  QBank.mk (QBank.id qbank) (QBank.name qbank) (QBank.description qbank)
    (List.filter keep (QBank.questions qbank)).

Definition nonEmptyBank (qbank : QBank.t) : bool :=
  negb (len (QBank.questions qbank) =? 0).

(** "No filter is active": each of the six category keys is off. *)
Definition spec_noFilterActive (filters : QuestionFilter.t) : bool :=
  negb (QuestionFilter.unused filters) && negb (QuestionFilter.used filters)
  && negb (QuestionFilter.correct filters)
  && negb (QuestionFilter.incorrect filters)
  && negb (QuestionFilter.marked filters)
  && negb (QuestionFilter.omitted filters).

(** "If no filter is active, returns the catalog unchanged.  Otherwise a
    question is retained if it matches ANY active filter.  Banks with zero
    retained questions are dropped entirely from the result." *)
Definition spec_filterCatalog (qbanks : list QBank.t) (sets : Dashboard.Sets)
    (filters : QuestionFilter.t) : list QBank.t :=
  if spec_noFilterActive filters then qbanks
  else
    List.filter nonEmptyBank
      (List.map (restrictBank (spec_matchesAny sets filters)) qbanks).

Definition onlyCorrect : QuestionFilter.t :=
  QuestionFilter.mk false false false true false false.

(** ** What the session hands over and what it counts *)

(** A record without a list of attempts. *)
Definition noAttempts (record : QuizHistory.t) : Prop :=
  QuizHistory.questionAttempts record = None.

(** The events between the start of a session and its end. *)
Definition withinSession (e : Index.Event) : bool :=
  match e with
  | Index.StartQuiz _ _ _ _ _ _ | Index.Quit | Index.Restart => false
  | _ => true
  end.

(** 1 when the event is an answer that the page accepts and that hits the
    correct option of the current question, 0 otherwise. *)
Definition acceptedCorrect (w : Index.Sys) (e : Index.Event) : Z :=
  let s := Index.state w in
  match e with
  | Index.AnswerClick optionIndex =>
      if Index.isAnswered s || Index.isPaused s then 0
      else
        match index (Index.currentQuestions s) (Index.currentQuestionIndex s) with
        | Some current =>
            if optionIndex =? Question.correctAnswer current then 1 else 0
        | None => 0
        end
  | _ => 0
  end.

(** The accepted correct answers along a run. *)
Fixpoint correctAnswers (qbanks : list QBank.t) (es : list Index.Event)
    (w : Index.Sys) : Z :=
  match es with
  | [] => 0
  | e :: es =>
      acceptedCorrect w e + correctAnswers qbanks es (Index.step qbanks e w)
  end.

(** ** Answering a session through *)

(** The answers, taken in order, that hit the correct option of the
    question they are given to. *)
Fixpoint hits (questions : list Question.t) (answers : list Z) : Z :=
  match questions, answers with
  | q :: questions, a :: answers =>
      (if a =? Question.correctAnswer q then 1 else 0) + hits questions answers
  | _, _ => 0
  end.

(** A question page without tutor mode and timer that waits for an
    answer. *)
Definition awaitsAnswer (s : Index.State) : Prop :=
  Index.isAnswered s = false /\ Index.isPaused s = false
  /\ Index.tutorMode s = false /\ Index.timerEnabled s = false.

(** ** What every run keeps *)

(** At most one timeout is pending, and it is the one whose handle the
    page holds in [questionTimer]. *)
Definition oneTimer (w : Index.Sys) : Prop :=
  match Index.timers w with
  | [] => True
  | [t] => Index.questionTimer (Index.state w) = Some (Index.handle t)
  | _ => False
  end.

(** A record the chart can plot: a score that is not negative over a
    positive number of questions. *)
Definition plottable (record : QuizHistory.t) : Prop :=
  0 <= QuizHistory.score record /\ 1 <= QuizHistory.totalQuestions record.

(** The page counts from 0: index and score are not negative, in the page
    and in every render a pending timeout has captured, and every record
    handed over is plottable. *)
Definition sane (w : Index.Sys) : Prop :=
  0 <= Index.currentQuestionIndex (Index.state w)
  /\ 0 <= Index.score (Index.state w)
  /\ Forall (fun t => 0 <= Index.score (Index.closure t)) (Index.timers w)
  /\ Forall plottable (Index.emitted w).

(** The clicks of the question page and of the score card: every event
    but the start of a session and a timeout. *)
Definition userEvent (e : Index.Event) : bool :=
  match e with
  | Index.StartQuiz _ _ _ _ _ _ | Index.TimerFires _ => false
  | _ => true
  end.

(** The page shows a question of the session. *)
Definition onQuestion (s : Index.State) : Prop :=
  0 <= Index.currentQuestionIndex s < len (Index.currentQuestions s).

(** ** Filters compared *)

(** The filters of the first render: none active. *)
Definition noFilter : QuestionFilter.t :=
  QuestionFilter.mk false false false false false false.

(** Every filter active in the first is active in the second. *)
Definition filtersWithin (f g : QuestionFilter.t) : Prop :=
  forall key, Dashboard.filterAt key f = true -> Dashboard.filterAt key g = true.

(** * Properties *)

(** ** Tactics and basic facts *)

(** Unfolds a handler down to the state cells it writes (by value, so
    that the thirteen reads of each setter share their argument). *)
Ltac handler :=
  cbv beta iota zeta delta
    [Index.step Index.dispatch Index.fire
     QuizController.clickPrevious
     Index.handleStartQuiz Index.handleAnswerClick
     Index.handleAnswerTimeout Index.timerCallback Index.handleContinue
     Index.handleQuit Index.handleRestart Index.handlePause
     Index.handleQuizNavigation Index.explanationPrevious
     Index.proceedToNextQuestion Index.startQuestionTimer
     Index.setCurrentQuestionIndex Index.setScore Index.setShowScore
     Index.setSelectedAnswer Index.setIsAnswered Index.setInQuiz
     Index.setCurrentQuestions Index.setTutorMode Index.setShowExplanation
     Index.setIsPaused Index.setTimerEnabled Index.setTimePerQuestion
     Index.setQuestionTimer Index.setTimeout Index.clearTimeout
     Index.dateNow Index.onQuizComplete Index.modify Index.defined
     Index.skip mbind Index.M_bind mret Index.M_ret
     fst snd Index.state Index.timers Index.nextHandle Index.emitted
     Index.now Index.currentQuestionIndex Index.score Index.showScore
     Index.selectedAnswer Index.isAnswered Index.inQuiz
     Index.currentQuestions Index.tutorMode Index.showExplanation
     Index.isPaused Index.timerEnabled Index.timePerQuestion
     Index.questionTimer andb orb negb Index.isPrev Index.isNext].

(** Opens the page's records, so that every read is a variable. *)
Ltac expose :=
  repeat match goal with
         | c : Index.State |- _ => destruct c
         | w : Index.Sys |- _ => destruct w
         end;
  cbn [Index.state Index.timers Index.nextHandle Index.emitted
       Index.now Index.currentQuestionIndex Index.score Index.showScore
       Index.selectedAnswer Index.isAnswered Index.inQuiz
       Index.currentQuestions Index.tutorMode Index.showExplanation
       Index.isPaused Index.timerEnabled Index.timePerQuestion
       Index.questionTimer] in *.

(** Splits on one read that blocks a handler. *)
Ltac read_case :=
  match goal with
  | |- context [Index.closure ?t] =>
      is_var t; destruct t as [? ? []]; cbn [Index.closure]
  | |- context [match ?x with _ => _ end] => is_var x; destruct x
  | |- context [match index ?l ?i with _ => _ end] =>
      destruct (index l i) eqn:?
  | |- context [match List.find ?p ?l with _ => _ end] =>
      destruct (List.find p l) eqn:?
  | |- context [if ?a =? ?b then _ else _] => destruct (Z.eqb_spec a b)
  | |- context [if ?a >? ?b then _ else _] => destruct (Z.gtb_spec a b)
  | |- context [if ?a <? ?b then _ else _] => destruct (Z.ltb_spec a b)
  end.

Lemma len_nonneg {A} (xs : list A) : 0 <= len xs.
Proof. unfold len. lia. Qed.

Lemma index_Some {A} (xs : list A) (i : Z) (x : A) :
  index xs i = Some x <-> 0 <= i /\ xs !! Z.to_nat i = Some x.
Proof.
  unfold index. destruct (Z.ltb_spec i 0); split.
  - discriminate.
  - intros [? _]. lia.
  - auto.
  - intros [_ ?]. assumption.
Qed.

Lemma index_lt {A} (xs : list A) (i : Z) (x : A) :
  index xs i = Some x -> 0 <= i < len xs.
Proof.
  intros [Hi Hx]%index_Some. apply lookup_lt_Some in Hx. unfold len. lia.
Qed.

(** ** The scored run of three questions (C3) *)

Section Scenario.
Variable qbanks : list QBank.t.
Variable sortRandom : list Question.t -> list Question.t.

(** C3: in a session without tutor mode and without timer over three
    questions whose correct answers are at 1, 0 and 2, answering 1, 1, 2
    gives score 1 after the first answer (and question 2 is shown), still
    1 after the second, and the third ends the session: the score card is
    shown and one record is emitted, with score 2 and totalQuestions 3. *)
Theorem scenario_three_questions
    (w : Index.Sys) (bankId : string) (bank : QBank.t) (q1 q2 q3 : Question.t) :
  List.find (fun qb => String.eqb (QBank.id qb) bankId) qbanks = Some bank ->
  sortRandom (QBank.questions bank) = [q1; q2; q3] ->
  Question.correctAnswer q1 = 1 ->
  Question.correctAnswer q2 = 0 ->
  Question.correctAnswer q3 = 2 ->
  let w0 := Index.step qbanks
              (Index.StartQuiz sortRandom bankId 3 false false 60) w in
  let w1 := Index.step qbanks (Index.AnswerClick 1) w0 in
  let w2 := Index.step qbanks (Index.AnswerClick 1) w1 in
  let w3 := Index.step qbanks (Index.AnswerClick 2) w2 in
  Index.currentQuestions (Index.state w0) = [q1; q2; q3]
  /\ Index.score (Index.state w1) = 1
  /\ Index.currentQuestionIndex (Index.state w1) = 1
  /\ Index.score (Index.state w2) = 1
  /\ Index.currentQuestionIndex (Index.state w2) = 2
  /\ Index.inQuiz (Index.state w3) = true
  /\ Index.showScore (Index.state w3) = true
  /\ Index.score (Index.state w3) = 2
  /\ exists record,
       Index.emitted w3 = Index.emitted w ++ [record]
       /\ QuizHistory.score record = 2
       /\ QuizHistory.totalQuestions record = 3.
Proof.
  intros Hfind Hsort H1 H2 H3 w0.
  assert (index [q1; q2; q3] 0 = Some q1) as I0 by reflexivity.
  assert (index [q1; q2; q3] 1 = Some q2) as I1 by reflexivity.
  assert (index [q1; q2; q3] 2 = Some q3) as I2 by reflexivity.
  assert (len [q1; q2; q3] = 3) as L3 by reflexivity.
  pose (session i n a b sc :=
          Index.mkState i n sc a b true [q1; q2; q3] false
            (Index.showExplanation (Index.state w)) false false 60
            (Index.questionTimer (Index.state w))).
  assert (w0 = Index.mkSys (session 0 0 None false false) (Index.timers w)
                 (Index.nextHandle w) (Index.emitted w) (Index.now w)) as E0.
  { subst w0. handler. rewrite Hfind. handler. rewrite Hsort. reflexivity. }
  clearbody w0. subst w0. intros w1.
  assert (w1 = Index.mkSys (session 1 1 None false false) (Index.timers w)
                 (Index.nextHandle w) (Index.emitted w) (Index.now w)) as E1.
  { subst w1. unfold session. handler. rewrite L3, I0. handler.
    rewrite H1. reflexivity. }
  clearbody w1. subst w1. intros w2.
  assert (w2 = Index.mkSys (session 2 1 None false false) (Index.timers w)
                 (Index.nextHandle w) (Index.emitted w) (Index.now w)) as E2.
  { subst w2. unfold session. handler. rewrite L3, I1. handler.
    rewrite H2. reflexivity. }
  clearbody w2. subst w2. intros w3.
  assert (w3 = Index.mkSys (session 2 2 (Some 2) true true) (Index.timers w)
                 (Index.nextHandle w)
                 (Index.emitted w ++ [QuizHistory.mk (Index.now w) (Index.now w)
                                        2 3 (Question.qbankId q1) None])
                 (Index.now w)) as E3.
  { subst w3. unfold session. handler. rewrite L3, I2. handler.
    rewrite I0, H3. reflexivity. }
  clearbody w3. subst w3. cbn.
  repeat split; try reflexivity.
  eexists. split; [reflexivity|]. split; reflexivity.
Qed.
End Scenario.

(** The run of C3 on [bank3]. *)
Lemma scenario_three_questions_witness :
  let w3 := Index.run [bank3]
              [Index.StartQuiz keepOrder "bank" 3 false false 60;
               Index.AnswerClick 1; Index.AnswerClick 1; Index.AnswerClick 2]
              (Index.boot 0) in
  Index.showScore (Index.state w3) = true
  /\ Index.score (Index.state w3) = 2
  /\ exists record,
       Index.emitted w3 = [record]
       /\ QuizHistory.score record = 2
       /\ QuizHistory.totalQuestions record = 3.
Proof.
  destruct (scenario_three_questions [bank3] keepOrder (Index.boot 0) "bank"
              bank3 (sampleQuestion 1 1 false) (sampleQuestion 2 0 false)
              (sampleQuestion 3 2 false) eq_refl eq_refl eq_refl eq_refl
              eq_refl)
    as (_ & _ & _ & _ & _ & _ & Hshow & Hscore & record & Hrec & Hs & Ht).
  split; [exact Hshow|]. split; [exact Hscore|].
  exists record. split; [exact Hrec|]. split; [exact Hs | exact Ht].
Defined.

(** ** What a terminated session hands to the history (C1) *)

(** C1, at the input of its scenario: a session over five questions in
    which two are answered and the user then quits emits one record; its
    totalQuestions is 5, but it carries no list of attempts at all, and
    the dashboard's [metrics], which reads [questionAttempts] of every
    record of the history, throws on it. *)
Theorem quit_after_two_of_five :
  let es := [Index.StartQuiz keepOrder "bank" 5 false false 60;
             Index.AnswerClick 1; Index.AnswerClick 2; Index.Quit] in
  let w := Index.run [bank5] es (Index.boot 0) in
  Index.feasible [bank5] es (Index.boot 0) = true
  /\ exists record,
       Index.emitted w = [record]
       /\ QuizHistory.totalQuestions record = 5
       /\ QuizHistory.score record = 1
       /\ QuizHistory.questionAttempts record = None
       /\ Dashboard.metrics [bank5] (Index.emitted w) = None.
Proof.
  cbv zeta. split; [vm_compute; reflexivity|].
  eexists. split; [vm_compute; reflexivity|].
  repeat split; vm_compute; reflexivity.
Qed.

(** No handler ever builds a record with attempts: whatever the events,
    every record handed to [onQuizComplete] lacks [questionAttempts]. *)
Lemma step_emits_without_attempts (qbanks : list QBank.t) (e : Index.Event)
    (w : Index.Sys) :
  exists records,
    Index.emitted (Index.step qbanks e w) = Index.emitted w ++ records
    /\ Forall noAttempts records.
Proof.
  expose. destruct e; handler;
    repeat (read_case; handler);
    first [ exists []; rewrite app_nil_r; split; [reflexivity | constructor]
          | eexists [_]; split; [reflexivity | repeat constructor] ].
Qed.

Lemma run_emits_without_attempts (qbanks : list QBank.t) (es : list Index.Event) :
  forall w : Index.Sys,
    Forall noAttempts (Index.emitted w) ->
    Forall noAttempts (Index.emitted (Index.run qbanks es w)).
Proof.
  induction es as [|e es IH]; intros w Hw; [exact Hw|].
  cbn [Index.run]. apply IH.
  destruct (step_emits_without_attempts qbanks e w) as (records & -> & Hrec).
  apply Forall_app. split; assumption.
Qed.

(** ** The score against the questions answered (C2) *)

(** C2, at a failing run: without tutor mode and timer, over two
    questions, the first question is answered correctly, re-opened with
    "previous" and answered correctly again: the score is 2 although only
    the first question has been answered; answering the second question
    then ends the session with a record of score 3 for 2 questions. *)
Theorem score_counts_reopened_question_again :
  let es := [Index.StartQuiz keepOrder "bank" 2 false false 60;
             Index.AnswerClick 1; Index.Navigate Index.prev;
             Index.AnswerClick 1] in
  let w := Index.run [bank2] es (Index.boot 0) in
  let w' := Index.run [bank2] [Index.AnswerClick 0] w in
  Index.feasible [bank2] (es ++ [Index.AnswerClick 0]) (Index.boot 0) = true
  /\ Index.score (Index.state w) = 2
  /\ Index.currentQuestionIndex (Index.state w) = 1
  /\ Index.emitted w = []
  /\ Index.score (Index.state w') = 3
  /\ len (Index.currentQuestions (Index.state w')) = 2
  /\ (QuizHistory.score <$> Index.emitted w') = [3]
  /\ (QuizHistory.totalQuestions <$> Index.emitted w') = [2].
Proof. cbv zeta. repeat split; vm_compute; reflexivity. Qed.

(** What the score does count, whatever the answers, timeouts, pauses and
    navigation of a session: every accepted answer that hits the correct
    option adds one, a re-opened question included, and nothing else
    changes it. *)
Lemma step_score (qbanks : list QBank.t) (e : Index.Event) (w : Index.Sys) :
  withinSession e = true ->
  Index.score (Index.state (Index.step qbanks e w))
  = Index.score (Index.state w) + acceptedCorrect w e.
Proof.
  intros Hin. unfold acceptedCorrect. expose.
  destruct e; try discriminate Hin; handler;
    repeat (read_case; handler); lia.
Qed.

(** Along a whole run within a session the score grows by the number of
    accepted answers that hit, and by nothing else. *)
Lemma run_score (qbanks : list QBank.t) (es : list Index.Event) :
  forall w : Index.Sys,
    Forall (fun e => withinSession e = true) es ->
    Index.score (Index.state (Index.run qbanks es w))
    = Index.score (Index.state w) + correctAnswers qbanks es w.
Proof.
  induction es as [|e es IH]; intros w Hes;
    cbn [Index.run correctAnswers]; [lia|].
  apply Forall_cons_1 in Hes as [He Hes].
  rewrite (IH _ Hes), (step_score _ _ _ He). lia.
Qed.

(** ** Answer against timeout (C4) *)

(** C4, at a failing run: tutor mode with the timer enabled, two questions.
    Answering the first question leaves the timeout armed at the start
    pending (nothing cancels it), and when it fires it is not a no-op: its
    callback tests the [isAnswered] of the render that armed it, so the
    page moves on to the second question and the selection is dropped. *)
Theorem timeout_after_answer_is_not_cancelled :
  let es := [Index.StartQuiz keepOrder "bank" 2 true true 10;
             Index.AnswerClick 1] in
  let w := Index.run [bank2] es (Index.boot 0) in
  let w' := Index.step [bank2] (Index.TimerFires 1) w in
  Index.feasible [bank2] (es ++ [Index.TimerFires 1]) (Index.boot 0) = true
  /\ Index.selectedAnswer (Index.state w) = Some 1
  /\ Index.isAnswered (Index.state w) = true
  /\ Index.currentQuestionIndex (Index.state w) = 0
  /\ (Index.handle <$> Index.timers w) = [1]
  /\ Index.currentQuestionIndex (Index.state w') = 1
  /\ Index.selectedAnswer (Index.state w') = None
  /\ Index.isAnswered (Index.state w') = false
  /\ w' <> w.
Proof.
  cbv zeta. repeat split; try (vm_compute; reflexivity).
  intros H. apply (f_equal (fun x => Index.isAnswered (Index.state x))) in H.
  vm_compute in H. discriminate.
Qed.

(** The other direction of C4 holds where the page stays on the question:
    after a timeout handled in tutor mode an answer is rejected. *)
Lemma answer_after_tutor_timeout_is_rejected
    (c : Index.State) (w : Index.Sys) (optionIndex : Z) :
  Index.tutorMode c = true ->
  let w1 := snd (Index.handleAnswerTimeout c w) in
  Index.isAnswered (Index.state w1) = true
  /\ snd (Index.handleAnswerClick (Index.state w1) optionIndex w1) = w1.
Proof.
  intros Htutor. expose. subst. handler. split; reflexivity.
Qed.

(** ** Continuing after a timeout in tutor mode (C10) *)

(** C10: in tutor mode a timeout leaves the question answered, with the
    explanation shown and no selection.  Continuing from there passes
    [selectedAnswer || 0], that is 0, to [proceedToNextQuestion]: on the
    last question the record emitted has the score so far plus one exactly
    when the correct answer of that question is option 0. *)
Theorem continue_after_timeout_scores_option_zero
    (c : Index.State) (w : Index.Sys) (q : Question.t) :
  Index.tutorMode c = true ->
  Index.selectedAnswer (Index.state w) = None ->
  Index.currentQuestionIndex (Index.state w)
    = len (Index.currentQuestions (Index.state w)) - 1 ->
  index (Index.currentQuestions (Index.state w))
    (Index.currentQuestionIndex (Index.state w)) = Some q ->
  let w1 := snd (Index.handleAnswerTimeout c w) in
  let w2 := snd (Index.handleContinue (Index.state w1) w1) in
  Index.isAnswered (Index.state w1) = true
  /\ Index.showExplanation (Index.state w1) = true
  /\ Index.selectedAnswer (Index.state w1) = None
  /\ Index.emitted w1 = Index.emitted w
  /\ Index.showScore (Index.state w2) = true
  /\ exists record,
       Index.emitted w2 = Index.emitted w ++ [record]
       /\ QuizHistory.totalQuestions record
            = len (Index.currentQuestions (Index.state w))
       /\ QuizHistory.questionAttempts record = None
       /\ QuizHistory.score record
            = Index.score (Index.state w)
              + (if Question.correctAnswer q =? 0 then 1 else 0)
       /\ (QuizHistory.score record = Index.score (Index.state w) + 1
           <-> Question.correctAnswer q = 0).
Proof.
  intros Htutor Hsel Hlast Hq.
  assert (exists first,
            index (Index.currentQuestions (Index.state w)) 0 = Some first)
    as [first Hfirst].
  { pose proof (index_lt _ _ _ Hq) as Hrange.
    destruct (Index.currentQuestions (Index.state w)) as [|x xs].
    - unfold len in Hrange. simpl in Hrange. lia.
    - exists x. reflexivity. }
  expose. subst. handler. cbn [or_else].
  rewrite Z.eqb_refl, Hq, Hfirst. handler.
  repeat split.
  eexists. split; [reflexivity|].
  cbn [QuizHistory.totalQuestions QuizHistory.score
       QuizHistory.questionAttempts].
  rewrite (Z.eqb_sym 0).
  repeat split; try reflexivity;
    destruct (Z.eqb_spec (Question.correctAnswer q) 0); lia.
Qed.

(** A run that reaches C10's situation through the page's own timer: in
    tutor mode with a timer over [bank2], the second (last) question is
    answered wrongly, re-entered through "previous" and "continue", and
    then times out; continuing emits score 2, the omitted last question,
    whose correct answer is option 0, counted as correct. *)
Lemma continue_after_timeout_witness :
  let es := [Index.StartQuiz keepOrder "bank" 2 true true 10;
             Index.AnswerClick 1; Index.Continue; Index.AnswerClick 2;
             Index.Navigate Index.prev; Index.Continue] in
  let w := Index.run [bank2] es (Index.boot 0) in
  Index.feasible [bank2] (es ++ [Index.TimerFires 4; Index.Continue])
    (Index.boot 0) = true
  /\ Index.score (Index.state w) = 1
  /\ (QuizHistory.score
        <$> Index.emitted
              (Index.run [bank2] [Index.TimerFires 4; Index.Continue] w))
     = [2].
Proof.
  cbv zeta.
  pose (c := Index.state
               (Index.run [bank2]
                  [Index.StartQuiz keepOrder "bank" 2 true true 10;
                   Index.AnswerClick 1; Index.Continue; Index.AnswerClick 2;
                   Index.Navigate Index.prev] (Index.boot 0))).
  pose (w := Index.run [bank2]
               [Index.StartQuiz keepOrder "bank" 2 true true 10;
                Index.AnswerClick 1; Index.Continue; Index.AnswerClick 2;
                Index.Navigate Index.prev; Index.Continue] (Index.boot 0)).
  assert (Index.tutorMode c = true) as H1 by (vm_compute; reflexivity).
  assert (Index.selectedAnswer (Index.state w) = None) as H2
    by (vm_compute; reflexivity).
  assert (Index.currentQuestionIndex (Index.state w)
          = len (Index.currentQuestions (Index.state w)) - 1) as H3
    by (vm_compute; reflexivity).
  assert (index (Index.currentQuestions (Index.state w))
            (Index.currentQuestionIndex (Index.state w))
          = Some (sampleQuestion 2 0 false)) as H4
    by (vm_compute; reflexivity).
  destruct (continue_after_timeout_scores_option_zero c w
              (sampleQuestion 2 0 false) H1 H2 H3 H4)
    as (_ & _ & _ & _ & _ & record & Hemitted & _ & _ & Hscore & _).
  split; [vm_compute; reflexivity|]. split; [vm_compute; reflexivity|].
  transitivity
    (QuizHistory.score
       <$> Index.emitted
             (snd (Index.handleContinue
                     (Index.state (snd (Index.handleAnswerTimeout c w)))
                     (snd (Index.handleAnswerTimeout c w)))));
    [vm_compute; reflexivity|].
  rewrite Hemitted.
  replace (Index.emitted w) with (@nil QuizHistory.t)
    by (vm_compute; reflexivity).
  cbn [app fmap list_fmap]. rewrite Hscore. vm_compute. reflexivity.
Defined.

(** ** Backward navigation (C7) *)



(** The [QuizController] component, whatever handler it is given,
    dispatches nothing from Previous while the timer is enabled; the page
    does not mount it. *)
Lemma controller_previous_disabled_in_timer_mode (p : QuizController.Props)
    (onNavigate : Index.Direction -> Index.M unit) :
  QuizController.timerEnabled p = true ->
  QuizController.clickPrevious p onNavigate = Index.skip.
Proof.
  intros Htimer.
  unfold QuizController.clickPrevious, QuizController.previousDisabled.
  rewrite Htimer, orb_true_r. reflexivity.
Qed.

(** The page's handler in timer mode, for any render it is a closure
    of: it rewinds and holds a new timeout. *)
Lemma handler_previous_in_timer_mode (c : Index.State) (w : Index.Sys) :
  0 < Index.currentQuestionIndex c ->
  Index.timerEnabled c = true ->
  let w' := snd (Index.handleQuizNavigation c Index.prev w) in
  Index.currentQuestionIndex (Index.state w')
    = Index.currentQuestionIndex (Index.state w) - 1
  /\ Index.questionTimer (Index.state w') = Some (Index.nextHandle w).
Proof.
  intros Hpos Htimer. expose. subst. handler.
  repeat (read_case; handler); try lia; split; reflexivity.
Qed.

(** ** Sampling at the start of a session (C5) *)

Lemma slice0_take {A} (n : Z) (xs : list A) :
  0 <= n -> slice0 n xs = take (Z.to_nat n) xs.
Proof.
  intros Hn. unfold slice0. destruct (Z.ltb_spec n 0); [lia | reflexivity].
Qed.

Section Sampling.
Variable qbanks : list QBank.t.
Variable sortRandom : list Question.t -> list Question.t.
Hypothesis sortRandom_permutes : forall qs, sortRandom qs ≡ₚ qs.

(** What the page's [handleStartQuiz] does guarantee: the session holds
    a prefix of a rearrangement of the bank found in the catalog, so
    [questionCount] questions when the bank has as many, all of the bank,
    and without repetition when the bank has none. *)
Lemma start_samples_the_catalog_bank
    (c : Index.State) (w : Index.Sys) (bankId : string) (bank : QBank.t)
    (questionCount : Z) (tutor timer : bool) (limit : Z) :
  List.find (fun qb => String.eqb (QBank.id qb) bankId) qbanks = Some bank ->
  0 <= questionCount <= len (QBank.questions bank) ->
  let session :=
    Index.currentQuestions
      (Index.state
         (snd (Index.handleStartQuiz qbanks sortRandom c bankId questionCount
                 tutor timer limit w))) in
  len session = questionCount
  /\ (forall q, q ∈ session -> q ∈ QBank.questions bank)
  /\ (NoDup (QBank.questions bank) -> NoDup session).
Proof.
  intros Hfind [Hlo Hhi]. cbv zeta. expose. handler. rewrite Hfind.
  repeat (read_case; handler);
    rewrite slice0_take by lia;
    (split; [|split]).
  all: try (unfold len in *; rewrite length_take,
              (Permutation_length (sortRandom_permutes _)); lia).
  all: try (intros q Hq; apply (subseteq_take (Z.to_nat questionCount)) in Hq;
            rewrite sortRandom_permutes in Hq; exact Hq).
  all: intros Hnodup; rewrite <- (sortRandom_permutes _) in Hnodup;
    eapply sublist_NoDup; [exact Hnodup | apply sublist_take].
Qed.
End Sampling.

(** C5, at a failing input: the catalog is one bank whose first question
    is unmarked and whose second is marked, and the filter "marked" is on,
    so the filtered bank holds the second question only.  Asking for one
    question passes the dashboard's check against the filtered bank, but
    the page samples from the bank of the catalog: with a draw that keeps
    the order the session is the unmarked first question, which the
    filtered bank does not contain. *)
Theorem start_ignores_the_filter :
  let filtered := [sampleBank [sampleQuestion 2 0 true]] in
  let r := start [markedBank] keepOrder filtered (sampleControls "bank" 1)
             (Index.boot 0) in
  Dashboard.filteredQBanks [markedBank] [] onlyMarked = Some filtered
  /\ spec_invalidConfiguration filtered (sampleControls "bank" 1) = false
  /\ fst r = Dashboard.OnStartQuiz "bank" 1 false false 60
  /\ Index.inQuiz (Index.state (snd r)) = true
  /\ Index.currentQuestions (Index.state (snd r)) = [sampleQuestion 1 1 false]
  /\ sampleQuestion 1 1 false ∉ [sampleQuestion 2 0 true].
Proof.
  cbv zeta. repeat split; try (vm_compute; reflexivity).
  intros Hin. apply list_elem_of_singleton in Hin. discriminate Hin.
Qed.

(** ** Rejected starts (C6) *)

(** C6 fails as stated: a question count of 0 is outside the allowed
    range, yet the click is dropped in silence, nothing is shown. *)
Lemma start_zero_count_is_silent :
  let d := sampleControls "bank" 0 in
  spec_invalidConfiguration [bank3] d = true
  /\ start [bank3] keepOrder [bank3] d (Index.boot 0)
     = (Dashboard.Nothing, Index.boot 0)
  /\ surfaced (fst (start [bank3] keepOrder [bank3] d (Index.boot 0))) = false.
Proof. cbv zeta. repeat split; vm_compute; reflexivity. Qed.

(** Nor is every invalid start without effect: a bank that the filter has
    emptied is no longer in the filtered catalog, the comparison with the
    missing bank's size is false, and the session is entered on the
    unfiltered bank. *)
Lemma start_on_filtered_out_bank_enters_session :
  let catalog := [sampleBank [sampleQuestion 1 1 false]] in
  let d := sampleControls "bank" 1 in
  let r := start catalog keepOrder [] d (Index.boot 0) in
  Dashboard.filteredQBanks catalog [] onlyMarked = Some []
  /\ spec_invalidConfiguration [] d = true
  /\ surfaced (fst r) = false
  /\ Index.inQuiz (Index.state (snd r)) = true
  /\ Index.currentQuestions (Index.state (snd r)) = [sampleQuestion 1 1 false].
Proof. cbv zeta. repeat split; vm_compute; reflexivity. Qed.

Section Rejections.
Variable qbanks : list QBank.t.
Variable sortRandom : list Question.t -> list Question.t.

(** C6 as the code has it: without a selected bank or with a question
    count that is not positive the click does nothing and shows nothing;
    with a count above the number of questions of the selected bank in
    the filtered catalog it shows the "Invalid Question Count" message;
    in both cases the page is left as it was. *)
Theorem start_rejections (filtered : list QBank.t) (d : Dashboard.Controls)
    (w : Index.Sys) :
  let r := start qbanks sortRandom filtered d w in
  (Dashboard.selectedQBank d = "" \/ Dashboard.questionCount d <= 0 ->
   r = (Dashboard.Nothing, w))
  /\ (forall bank,
        Dashboard.selectedQBank d <> "" ->
        0 < Dashboard.questionCount d ->
        List.find (fun qb => String.eqb (QBank.id qb) (Dashboard.selectedQBank d))
          filtered = Some bank ->
        len (QBank.questions bank) < Dashboard.questionCount d ->
        snd r = w
        /\ surfaced (fst r) = true
        /\ exists description,
             fst r = Dashboard.Toast "Invalid Question Count" description).
Proof.
  cbv zeta. unfold start, Dashboard.handleStartQuiz, Dashboard.truthy. split.
  - intros [Hsel|Hcount].
    + rewrite Hsel. reflexivity.
    + destruct (Z.gtb_spec (Dashboard.questionCount d) 0); [lia|].
      rewrite andb_false_r. reflexivity.
  - intros bank Hsel Hpos Hfind Hover.
    destruct (String.eqb_spec (Dashboard.selectedQBank d) "") as [|_];
      [contradiction|].
    destruct (Z.gtb_spec (Dashboard.questionCount d) 0); [|lia].
    cbn [negb andb]. rewrite Hfind. unfold Dashboard.exceeds.
    destruct (Z.gtb_spec (Dashboard.questionCount d)
                (len (QBank.questions bank))); [|lia].
    cbn [fst snd surfaced]. repeat split. eexists. reflexivity.
Qed.
End Rejections.

(** Both rejections of C6 on [bank3]: no bank selected, and four
    questions asked of three. *)
Lemma start_rejections_witness :
  start [bank3] keepOrder [bank3] (sampleControls "" 3) (Index.boot 0)
  = (Dashboard.Nothing, Index.boot 0)
  /\ snd (start [bank3] keepOrder [bank3] (sampleControls "bank" 4)
            (Index.boot 0)) = Index.boot 0
  /\ surfaced (fst (start [bank3] keepOrder [bank3] (sampleControls "bank" 4)
                      (Index.boot 0))) = true.
Proof.
  split.
  - apply (start_rejections [bank3] keepOrder [bank3] (sampleControls "" 3)
             (Index.boot 0)).
    left. reflexivity.
  - destruct (start_rejections [bank3] keepOrder [bank3]
                (sampleControls "bank" 4) (Index.boot 0)) as [_ Hover].
    destruct (Hover bank3) as (Hsame & Hshown & _).
    + discriminate.
    + reflexivity.
    + reflexivity.
    + reflexivity.
    + split; assumption.
Defined.

(** ** The marked count of the metrics (C8) *)

(** C8, at a failing input: the catalog has one marked question and the
    history is empty.  The marked count of the metrics is 0, although a
    question is marked, and it becomes 1 as soon as the history holds any
    record; the filter "marked" of the same component, on the same empty
    history, does keep the marked question. *)
Theorem marked_count_zero_without_history :
  len (List.filter Question.isMarked (catalogQuestions [markedBank])) = 1
  /\ Dashboard.marked <$> Dashboard.metrics [markedBank] [] = Some 0
  /\ Dashboard.marked <$> Dashboard.metrics [markedBank] [sampleRecord []]
     = Some 1
  /\ Dashboard.filteredQBanks [markedBank] [] onlyMarked
     = Some [sampleBank [sampleQuestion 2 0 true]].
Proof. repeat split; vm_compute; reflexivity. Qed.

Lemma scanHistory_total (quizHistory : list QuizHistory.t) :
  forall acc,
    Forall hasAttempts quizHistory ->
    Dashboard.scanHistory quizHistory acc
    = Some (foldl Dashboard.scanAttempt acc (allAttempts quizHistory)).
Proof.
  induction quizHistory as [|quiz rest IH]; intros acc Hall; [reflexivity|].
  apply Forall_cons_1 in Hall as [[attempts Hquiz] Hrest].
  cbn [Dashboard.scanHistory allAttempts flat_map]. rewrite Hquiz.
  cbn [mbind option_bind default]. rewrite foldl_app. apply IH, Hrest.
Qed.

Lemma scanHistory_attempts (quizHistory : list QuizHistory.t) :
  forall acc sets,
    Dashboard.scanHistory quizHistory acc = Some sets ->
    Forall hasAttempts quizHistory.
Proof.
  induction quizHistory as [|quiz rest IH]; intros acc sets Hscan;
    [constructor|].
  cbn [Dashboard.scanHistory] in Hscan.
  destruct (QuizHistory.questionAttempts quiz) as [attempts|] eqn:Hquiz;
    [|discriminate].
  cbn [mbind option_bind] in Hscan. constructor.
  - unfold hasAttempts. rewrite Hquiz. eexists. reflexivity.
  - eapply IH, Hscan.
Qed.

Lemma scanMarked_questions (questions : list Question.t) (acc : gset Z) :
  foldl (fun acc question =>
           if Question.isMarked question
           then {[ Question.id question ]} ∪ acc else acc) acc questions
  = list_to_set (Question.id <$> List.filter Question.isMarked questions) ∪ acc.
Proof.
  revert acc. induction questions as [|q qs IH]; intros acc;
    cbn [foldl List.filter].
  - cbn [fmap list_fmap list_to_set]. rewrite (left_id_L ∅ (∪)). reflexivity.
  - rewrite IH. destruct (Question.isMarked q); [|reflexivity].
    cbn [fmap list_fmap list_to_set].
    rewrite (assoc_L (∪)), (comm_L (∪) _ {[ Question.id q ]}). reflexivity.
Qed.

Lemma filter_flat_map {A B} (p : B -> bool) (f : A -> list B) (xs : list A) :
  List.filter p (flat_map f xs) = flat_map (fun x => List.filter p (f x)) xs.
Proof.
  induction xs as [|x xs IH]; [reflexivity|].
  cbn [flat_map]. rewrite List.filter_app, IH. reflexivity.
Qed.

Lemma scanMarked_catalog (qbanks : list QBank.t) :
  Dashboard.scanMarked qbanks
  = list_to_set
      (Question.id <$> List.filter Question.isMarked (catalogQuestions qbanks)).
Proof.
  unfold Dashboard.scanMarked.
  enough (forall acc : gset Z,
            foldl (fun acc qbank =>
                     foldl (fun acc question =>
                              if Question.isMarked question
                              then {[ Question.id question ]} ∪ acc else acc)
                           acc (QBank.questions qbank)) acc qbanks
            = list_to_set
                (Question.id
                   <$> List.filter Question.isMarked (catalogQuestions qbanks))
              ∪ acc) as H.
  { rewrite H. apply (right_id_L ∅ (∪)). }
  induction qbanks as [|qbank rest IH]; intros acc;
    cbn [foldl catalogQuestions flat_map].
  - cbn [List.filter fmap list_fmap list_to_set].
    rewrite (left_id_L ∅ (∪)). reflexivity.
  - rewrite IH, scanMarked_questions, List.filter_app, fmap_app,
      list_to_set_app_L.
    fold (catalogQuestions rest).
    rewrite (assoc_L (∪)),
      (comm_L (∪)
         (list_to_set
            (Question.id <$> List.filter Question.isMarked (catalogQuestions rest)))).
    reflexivity.
Qed.

Lemma NoDup_fmap_filter {A B} (f : A -> B) (p : A -> bool) (xs : list A) :
  NoDup (f <$> xs) -> NoDup (f <$> List.filter p xs).
Proof.
  induction xs as [|x xs IH]; intros Hnodup; [exact Hnodup|].
  cbn [fmap list_fmap] in Hnodup. apply NoDup_cons in Hnodup as [Hx Hxs].
  cbn [List.filter]. destruct (p x); [|apply IH, Hxs].
  cbn [fmap list_fmap]. apply NoDup_cons. split; [|apply IH, Hxs].
  intros Hin. apply Hx. apply list_elem_of_fmap in Hin as (y & -> & Hy).
  apply list_elem_of_fmap. exists y. split; [reflexivity|].
  apply list_elem_of_In. apply list_elem_of_In, List.filter_In in Hy.
  apply Hy.
Qed.

(** What the marked count is in general: when every record of the
    history carries its attempts the metrics are computed, and, question
    ids being unique in the catalog, the marked count is the number of
    catalog questions whose [isMarked] is true if the history has a
    record, and 0 if it has none. *)
Theorem marked_count (qbanks : list QBank.t) (quizHistory : list QuizHistory.t) :
  Forall hasAttempts quizHistory ->
  NoDup (Question.id <$> catalogQuestions qbanks) ->
  exists m,
    Dashboard.metrics qbanks quizHistory = Some m
    /\ Dashboard.marked m
       = match quizHistory with
         | [] => 0
         | _ :: _ =>
             len (List.filter Question.isMarked (catalogQuestions qbanks))
         end.
Proof.
  intros Hall Hnodup. unfold Dashboard.metrics.
  rewrite (scanHistory_total _ _ Hall). cbn [mbind option_bind].
  eexists. split; [reflexivity|]. cbn [Dashboard.marked].
  destruct quizHistory as [|quiz rest].
  - reflexivity.
  - assert ((len (quiz :: rest) >? 0) = true) as ->.
    { unfold len. cbn [length]. apply Z.gtb_lt. lia. }
    rewrite scanMarked_catalog. unfold Dashboard.setSize, len.
    rewrite size_list_to_set by (apply NoDup_fmap_filter, Hnodup).
    rewrite length_fmap. reflexivity.
Qed.

(** The marked count on a catalog with one marked question of two and a
    history of one record. *)
Lemma marked_count_witness :
  exists m,
    Dashboard.metrics [markedBank] [sampleRecord []] = Some m
    /\ Dashboard.marked m = 1.
Proof.
  destruct (marked_count [markedBank] [sampleRecord []]) as (m & Hm & Hmarked).
  - repeat constructor. eexists. reflexivity.
  - apply (bool_decide_unpack _). vm_compute. exact I.
  - exists m. split; [exact Hm|]. rewrite Hmarked. reflexivity.
Defined.

(** ** The catalog filter (C9) *)

Lemma attemptsOf_total (quizHistory : list QuizHistory.t) (question : Question.t) :
  Forall hasAttempts quizHistory ->
  Dashboard.attemptsOf quizHistory question
  = Some (List.filter
            (fun attempt =>
               QuestionAttempt.questionId attempt =? Question.id question)
            (allAttempts quizHistory)).
Proof.
  induction quizHistory as [|quiz rest IH]; intros Hall; [reflexivity|].
  apply Forall_cons_1 in Hall as [[attempts Hquiz] Hrest].
  cbn [Dashboard.attemptsOf allAttempts flat_map]. rewrite Hquiz, (IH Hrest).
  cbn [mbind option_bind default]. rewrite List.filter_app. reflexivity.
Qed.

(** Which ids the scan of a list of attempts puts into each set. *)
Lemma scan_sets (attempts : list QuestionAttempt.t) (i : Z) :
  forall acc,
    let sets := foldl Dashboard.scanAttempt acc attempts in
    (i ∈ Dashboard.seenQuestionIds sets <->
       i ∈ Dashboard.seenQuestionIds acc
       \/ exists a, In a attempts /\ QuestionAttempt.questionId a = i)
    /\ (i ∈ Dashboard.correctQuestionIds sets <->
          i ∈ Dashboard.correctQuestionIds acc
          \/ exists a, In a attempts /\ QuestionAttempt.questionId a = i
                       /\ QuestionAttempt.selectedAnswer a <> None
                       /\ QuestionAttempt.isCorrect a = true)
    /\ (i ∈ Dashboard.incorrectQuestionIds sets <->
          i ∈ Dashboard.incorrectQuestionIds acc
          \/ exists a, In a attempts /\ QuestionAttempt.questionId a = i
                       /\ (QuestionAttempt.selectedAnswer a = None
                           \/ QuestionAttempt.isCorrect a = false))
    /\ (i ∈ Dashboard.omittedQuestionIds sets <->
          i ∈ Dashboard.omittedQuestionIds acc
          \/ exists a, In a attempts /\ QuestionAttempt.questionId a = i
                       /\ QuestionAttempt.selectedAnswer a = None).
Proof.
  induction attempts as [|a rest IH]; intros acc; cbn [foldl].
  - cbv zeta. cbn [In]. repeat split; intros; try tauto;
      destruct H as [?|(? & [] & _)]; assumption.
  - specialize (IH (Dashboard.scanAttempt acc a)). cbv zeta in IH |- *.
    destruct IH as (Hseen & Hcorrect & Hincorrect & Homitted).
    rewrite Hseen, Hcorrect, Hincorrect, Homitted. clear.
    unfold Dashboard.scanAttempt. cbn [In].
    destruct (QuestionAttempt.selectedAnswer a) as [n|] eqn:Hsel;
      destruct (QuestionAttempt.isCorrect a) eqn:Hok;
      cbn [Dashboard.seenQuestionIds Dashboard.correctQuestionIds
           Dashboard.incorrectQuestionIds Dashboard.omittedQuestionIds];
      rewrite ?elem_of_union, ?elem_of_singleton;
      repeat split; intros H;
      repeat match goal with
             | H : _ \/ _ |- _ => destruct H
             | H : exists _, _ |- _ => destruct H
             | H : _ /\ _ |- _ => destruct H
             end; subst;
      try congruence;
      eauto 10;
      right; exists a; repeat split; auto; congruence.
Qed.

Lemma filter_by_id_nonempty (attempts : list QuestionAttempt.t) (i : Z) :
  (len (List.filter (fun a => QuestionAttempt.questionId a =? i) attempts) >? 0)
  = true
  <-> exists a, In a attempts /\ QuestionAttempt.questionId a = i.
Proof.
  split.
  - destruct (List.filter _ attempts) as [|a rest] eqn:Hfilter.
    + unfold len. cbn [length]. intros H. apply Z.gtb_lt in H. lia.
    + intros _. exists a.
      assert (In a (List.filter
                      (fun a => QuestionAttempt.questionId a =? i) attempts))
        as Hin by (rewrite Hfilter; left; reflexivity).
      apply List.filter_In in Hin as [Hin Hid]. apply Z.eqb_eq in Hid. auto.
  - intros (a & Hin & Hid). apply Z.gtb_lt.
    assert (In a (List.filter
                    (fun a => QuestionAttempt.questionId a =? i) attempts))
      as Hin'.
    { apply List.filter_In. split; [exact Hin | apply Z.eqb_eq, Hid]. }
    destruct (List.filter _ attempts); [destruct Hin'|].
    unfold len. cbn [length]. lia.
Qed.

Lemma existsb_by_id (p : QuestionAttempt.t -> bool)
    (attempts : list QuestionAttempt.t) (i : Z) :
  existsb p (List.filter (fun a => QuestionAttempt.questionId a =? i) attempts)
  = true
  <-> exists a, In a attempts /\ QuestionAttempt.questionId a = i /\ p a = true.
Proof.
  rewrite existsb_exists. split.
  - intros (a & Hin & Hp). apply List.filter_In in Hin as [Hin Hid].
    apply Z.eqb_eq in Hid. eauto.
  - intros (a & Hin & Hid & Hp). exists a. split; [|exact Hp].
    apply List.filter_In. split; [exact Hin | apply Z.eqb_eq, Hid].
Qed.

(** On well-formed attempts the tests of the filter are the memberships
    in the id sets of the metrics. *)
Lemma keeps_matches (quizHistory : list QuizHistory.t) (sets : Dashboard.Sets)
    (filters : QuestionFilter.t) (question : Question.t) :
  Dashboard.scanHistory quizHistory Dashboard.noSets = Some sets ->
  Forall wellFormed (allAttempts quizHistory) ->
  Dashboard.keeps quizHistory filters question
  = Some (spec_matchesAny sets filters question).
Proof.
  intros Hscan Hwf.
  pose proof (scanHistory_attempts _ _ _ Hscan) as Hall.
  rewrite (scanHistory_total _ _ Hall) in Hscan. injection Hscan as <-.
  unfold Dashboard.keeps. rewrite (attemptsOf_total _ _ Hall).
  cbn [mbind option_bind]. f_equal. unfold spec_matchesAny. cbv zeta.
  destruct (scan_sets (allAttempts quizHistory) (Question.id question)
              Dashboard.noSets) as (Hseen & Hcorrect & Hincorrect & Homitted).
  cbv zeta in Hseen, Hcorrect, Hincorrect, Homitted.
  cbn [Dashboard.noSets Dashboard.seenQuestionIds Dashboard.correctQuestionIds
       Dashboard.incorrectQuestionIds Dashboard.omittedQuestionIds]
    in Hseen, Hcorrect, Hincorrect, Homitted.
  rewrite Forall_forall in Hwf.
  assert (forall a, In a (allAttempts quizHistory) -> wellFormed a) as Hwf'.
  { intros a Ha. apply Hwf, list_elem_of_In, Ha. }
  clear Hwf.
  set (attempts := allAttempts quizHistory) in *.
  set (i := Question.id question) in *.
  assert ((len (List.filter (fun a => QuestionAttempt.questionId a =? i)
                  attempts) >? 0)
          = bool_decide (i ∈ Dashboard.seenQuestionIds
                               (foldl Dashboard.scanAttempt Dashboard.noSets
                                  attempts))) as ->.
  { apply Bool.eq_iff_eq_true.
    rewrite filter_by_id_nonempty, bool_decide_eq_true, Hseen. split.
    - intros Hsome. right. exact Hsome.
    - intros [Hempty|Hsome]; [|exact Hsome].
      apply not_elem_of_empty in Hempty. destruct Hempty. }
  assert (existsb QuestionAttempt.isCorrect
            (List.filter (fun a => QuestionAttempt.questionId a =? i) attempts)
          = bool_decide (i ∈ Dashboard.correctQuestionIds
                               (foldl Dashboard.scanAttempt Dashboard.noSets
                                  attempts))) as ->.
  { apply Bool.eq_iff_eq_true.
    rewrite existsb_by_id, bool_decide_eq_true, Hcorrect. split.
    - intros (a & Hin & Hid & Hok). right. exists a.
      repeat split; try assumption.
      intros Hnone. apply (Hwf' a Hin) in Hnone. congruence.
    - intros [Hempty|(a & Hin & Hid & _ & Hok)]; [|eauto].
      apply not_elem_of_empty in Hempty. destruct Hempty. }
  assert (existsb (fun a => negb (QuestionAttempt.isCorrect a))
            (List.filter (fun a => QuestionAttempt.questionId a =? i) attempts)
          = bool_decide (i ∈ Dashboard.incorrectQuestionIds
                               (foldl Dashboard.scanAttempt Dashboard.noSets
                                  attempts))) as ->.
  { apply Bool.eq_iff_eq_true.
    rewrite existsb_by_id, bool_decide_eq_true, Hincorrect. split.
    - intros (a & Hin & Hid & Hno). right. exists a.
      repeat split; try assumption. right.
      apply negb_true_iff, Hno.
    - intros [Hempty|(a & Hin & Hid & Hbad)];
        [apply not_elem_of_empty in Hempty; destruct Hempty|].
      exists a. repeat split; try assumption.
      apply negb_true_iff. destruct Hbad as [Hnone|Hno]; [|exact Hno].
      apply (Hwf' a Hin), Hnone. }
  assert (existsb Dashboard.isOmittedAttempt
            (List.filter (fun a => QuestionAttempt.questionId a =? i) attempts)
          = bool_decide (i ∈ Dashboard.omittedQuestionIds
                               (foldl Dashboard.scanAttempt Dashboard.noSets
                                  attempts))) as ->.
  { apply Bool.eq_iff_eq_true.
    rewrite existsb_by_id, bool_decide_eq_true, Homitted.
    unfold Dashboard.isOmittedAttempt. split.
    - intros (a & Hin & Hid & Hno). right. exists a.
      repeat split; try assumption.
      destruct (QuestionAttempt.selectedAnswer a); [discriminate|reflexivity].
    - intros [Hempty|(a & Hin & Hid & Hnone)];
        [apply not_elem_of_empty in Hempty; destruct Hempty|].
      exists a. rewrite Hnone. auto. }
  reflexivity.
Qed.

Lemma filterThrowing_total {A} (p : A -> option bool) (f : A -> bool)
    (xs : list A) :
  (forall x, p x = Some (f x)) ->
  Dashboard.filterThrowing p xs = Some (List.filter f xs).
Proof.
  intros Hp. induction xs as [|x xs IH]; [reflexivity|].
  cbn [Dashboard.filterThrowing List.filter]. rewrite Hp, IH.
  cbn [mbind option_bind]. reflexivity.
Qed.

Lemma mapM_total {A B} (g : A -> option B) (f : A -> B) (xs : list A) :
  (forall x, g x = Some (f x)) -> mapM g xs = Some (List.map f xs).
Proof.
  intros Hg. induction xs as [|x xs IH]; [reflexivity|].
  cbn [mapM List.map]. rewrite Hg, IH. reflexivity.
Qed.

(** Without an active filter the catalog comes back as it is, whatever
    the history holds. *)
Lemma no_filter_returns_catalog (qbanks : list QBank.t)
    (quizHistory : list QuizHistory.t) (filters : QuestionFilter.t) :
  Dashboard.anyFilter filters = false ->
  Dashboard.filteredQBanks qbanks quizHistory filters = Some qbanks.
Proof. intros H. unfold Dashboard.filteredQBanks. rewrite H. reflexivity. Qed.

(** The guard of the filter, [Object.values(filters).some(Boolean)], is
    true exactly when one of the six keys is on. *)
Lemma anyFilter_spec (filters : QuestionFilter.t) :
  Dashboard.anyFilter filters = negb (spec_noFilterActive filters).
Proof.
  destruct filters as [[] [] [] [] [] []]; reflexivity.
Qed.

(** C9: on a history whose records carry their (well-formed) attempts,
    with [sets] the id sets of the metrics, [filteredQBanks] returns the
    catalog unchanged when each of the six filters is off, and otherwise
    keeps in each bank exactly the questions matching at least one active
    filter, dropping the banks left without question; with only "correct"
    active a question matches exactly when one of its attempts in the
    history has [isCorrect] true. *)
Theorem filteredQBanks_refines_spec (qbanks : list QBank.t)
    (quizHistory : list QuizHistory.t) (filters : QuestionFilter.t)
    (sets : Dashboard.Sets) :
  Dashboard.scanHistory quizHistory Dashboard.noSets = Some sets ->
  Forall wellFormed (allAttempts quizHistory) ->
  Dashboard.filteredQBanks qbanks quizHistory filters
  = Some (spec_filterCatalog qbanks sets filters)
  /\ (spec_noFilterActive filters = true ->
      Dashboard.filteredQBanks qbanks quizHistory filters = Some qbanks)
  /\ (forall question,
        spec_matchesAny sets onlyCorrect question = true
        <-> exists attempt,
              In attempt (allAttempts quizHistory)
              /\ QuestionAttempt.questionId attempt = Question.id question
              /\ QuestionAttempt.isCorrect attempt = true).
Proof.
  intros Hscan Hwf. split; [|split].
  - unfold Dashboard.filteredQBanks, spec_filterCatalog.
    rewrite anyFilter_spec.
    destruct (spec_noFilterActive filters); [reflexivity|].
    cbn [negb].
    rewrite (mapM_total _ (restrictBank (spec_matchesAny sets filters))).
    + cbn [mbind option_bind]. f_equal. apply List.filter_ext.
      intros qbank. unfold nonEmptyBank.
      pose proof (len_nonneg (QBank.questions qbank)).
      destruct (Z.gtb_spec (len (QBank.questions qbank)) 0),
        (Z.eqb_spec (len (QBank.questions qbank)) 0); try reflexivity; lia.
    + intros qbank.
      rewrite (filterThrowing_total _ (spec_matchesAny sets filters))
        by (intros question; apply keeps_matches; assumption).
      reflexivity.
  - intros Hnone. apply no_filter_returns_catalog.
    rewrite anyFilter_spec, Hnone. reflexivity.
  - intros question.
    pose proof (keeps_matches quizHistory sets onlyCorrect question Hscan Hwf)
      as Hkeeps.
    pose proof (scanHistory_attempts _ _ _ Hscan) as Hall.
    unfold Dashboard.keeps in Hkeeps.
    rewrite (attemptsOf_total _ _ Hall) in Hkeeps.
    cbn [mbind option_bind onlyCorrect QuestionFilter.unused
         QuestionFilter.used QuestionFilter.correct QuestionFilter.incorrect
         QuestionFilter.marked QuestionFilter.omitted andb orb] in Hkeeps.
    injection Hkeeps as Hkeeps. rewrite <- Hkeeps, !orb_false_r.
    apply existsb_by_id.
Qed.

(** The filter on [bank2] with "correct" active: the
    first question was answered correctly once, the second only omitted,
    so the first one alone is kept. *)
Lemma filteredQBanks_witness :
  Dashboard.filteredQBanks [bank2]
    [sampleRecord [QuestionAttempt.mk 1 (Some 1) true;
                   QuestionAttempt.mk 2 None false]]
    onlyCorrect
  = Some [sampleBank [sampleQuestion 1 1 false]].
Proof.
  pose (attempts := [QuestionAttempt.mk 1 (Some 1) true;
                     QuestionAttempt.mk 2 None false]).
  destruct (filteredQBanks_refines_spec [bank2] [sampleRecord attempts]
              onlyCorrect (foldl Dashboard.scanAttempt Dashboard.noSets attempts))
    as [Hrefines _].
  - reflexivity.
  - constructor; [intros Hnone; discriminate Hnone|].
    constructor; [intros _; reflexivity|]. constructor.
  - etransitivity; [exact Hrefines|]. vm_compute. reflexivity.
Defined.

Lemma answer_advances (qbanks : list QBank.t) (w : Index.Sys) (a : Z)
    (q : Question.t) :
  awaitsAnswer (Index.state w) ->
  index (Index.currentQuestions (Index.state w))
    (Index.currentQuestionIndex (Index.state w)) = Some q ->
  Index.currentQuestionIndex (Index.state w)
    <> len (Index.currentQuestions (Index.state w)) - 1 ->
  let w' := Index.step qbanks (Index.AnswerClick a) w in
  awaitsAnswer (Index.state w')
  /\ Index.currentQuestionIndex (Index.state w')
     = Index.currentQuestionIndex (Index.state w) + 1
  /\ Index.score (Index.state w')
     = Index.score (Index.state w)
       + (if a =? Question.correctAnswer q then 1 else 0)
  /\ Index.currentQuestions (Index.state w')
     = Index.currentQuestions (Index.state w)
  /\ Index.showScore (Index.state w') = Index.showScore (Index.state w)
  /\ Index.emitted w' = Index.emitted w.
Proof.
  intros (Hans & Hpau & Htut & Htim) Hq Hlast. unfold awaitsAnswer. expose.
  subst. handler. rewrite Hq. handler.
  destruct (Z.eqb_spec currentQuestionIndex (len currentQuestions - 1));
    [contradiction|].
  destruct (Z.eqb_spec a (Question.correctAnswer q)); handler;
    repeat split; lia.
Qed.

Lemma answer_finishes (qbanks : list QBank.t) (w : Index.Sys) (a : Z)
    (q : Question.t) :
  awaitsAnswer (Index.state w) ->
  index (Index.currentQuestions (Index.state w))
    (Index.currentQuestionIndex (Index.state w)) = Some q ->
  Index.currentQuestionIndex (Index.state w)
    = len (Index.currentQuestions (Index.state w)) - 1 ->
  let w' := Index.step qbanks (Index.AnswerClick a) w in
  let gain := if a =? Question.correctAnswer q then 1 else 0 in
  Index.showScore (Index.state w') = true
  /\ Index.score (Index.state w') = Index.score (Index.state w) + gain
  /\ exists record,
       Index.emitted w' = Index.emitted w ++ [record]
       /\ QuizHistory.score record = Index.score (Index.state w) + gain
       /\ QuizHistory.totalQuestions record
          = len (Index.currentQuestions (Index.state w)).
Proof.
  intros (Hans & Hpau & Htut & Htim) Hq Hlast.
  assert (exists first,
            index (Index.currentQuestions (Index.state w)) 0 = Some first)
    as [first Hfirst].
  { pose proof (index_lt _ _ _ Hq) as Hrange.
    destruct (Index.currentQuestions (Index.state w)) as [|x xs].
    - unfold len in Hrange. simpl in Hrange. lia.
    - exists x. reflexivity. }
  expose. subst. handler. rewrite Hq. handler.
  rewrite Z.eqb_refl, Hfirst.
  destruct (Z.eqb_spec a (Question.correctAnswer q)); handler;
    (split; [reflexivity|]); (split; [lia|]);
    eexists; (split; [reflexivity|]); split; reflexivity.
Qed.

Lemma index_drop {A} (xs : list A) (i : Z) (x : A) :
  index xs i = Some x ->
  drop (Z.to_nat i) xs = x :: drop (Z.to_nat (i + 1)) xs.
Proof.
  intros [Hi Hx]%index_Some.
  replace (Z.to_nat (i + 1)) with (S (Z.to_nat i)) by lia.
  apply drop_S, Hx.
Qed.

Lemma index_in_range {A} (xs : list A) (i : Z) :
  0 <= i < len xs -> exists x, index xs i = Some x.
Proof.
  intros [Hlo Hhi]. unfold index.
  destruct (Z.ltb_spec i 0); [lia|].
  apply lookup_lt_is_Some. unfold len in Hhi. lia.
Qed.

(** Without tutor mode and timer, answering every remaining question once,
    in order, ends the session: the score card is shown and exactly one
    record is emitted, whose score is the score so far plus the number of
    answers that hit, and whose totalQuestions is the session's size. *)
Theorem answering_through_finishes (qbanks : list QBank.t)
    (answers : list Z) :
  forall w : Index.Sys,
    awaitsAnswer (Index.state w) ->
    0 <= Index.currentQuestionIndex (Index.state w) ->
    answers <> [] ->
    Index.currentQuestionIndex (Index.state w) + len answers
      = len (Index.currentQuestions (Index.state w)) ->
    let remaining :=
      drop (Z.to_nat (Index.currentQuestionIndex (Index.state w)))
        (Index.currentQuestions (Index.state w)) in
    let w' := Index.run qbanks (Index.AnswerClick <$> answers) w in
    Index.showScore (Index.state w') = true
    /\ Index.score (Index.state w')
       = Index.score (Index.state w) + hits remaining answers
    /\ exists record,
         Index.emitted w' = Index.emitted w ++ [record]
         /\ QuizHistory.score record
            = Index.score (Index.state w) + hits remaining answers
         /\ QuizHistory.totalQuestions record
            = len (Index.currentQuestions (Index.state w)).
Proof.
  induction answers as [|a rest IH]; intros w Hwait Hlo Hne Hlen;
    [contradiction|].
  cbv zeta. cbn [fmap list_fmap Index.run].
  assert (len (a :: rest) = 1 + len rest) as Hcons
    by (unfold len; cbn [length]; lia).
  rewrite Hcons in Hlen.
  pose proof (len_nonneg rest) as Hrest.
  destruct (index_in_range (Index.currentQuestions (Index.state w))
              (Index.currentQuestionIndex (Index.state w))) as [q Hq];
    [lia|].
  rewrite (index_drop _ _ _ Hq). cbn [hits].
  destruct rest as [|b rest].
  - assert (Index.currentQuestionIndex (Index.state w)
            = len (Index.currentQuestions (Index.state w)) - 1) as Hlast
      by (unfold len in Hlen at 1; cbn [length] in Hlen; lia).
    destruct (answer_finishes qbanks w a q Hwait Hq Hlast)
      as (Hshow & Hscore & record & Hem & Hrs & Hrt).
    cbn [fmap list_fmap Index.run].
    replace (hits (drop _ _) []) with 0 by (destruct (drop _ _); reflexivity).
    rewrite Z.add_0_r. split; [exact Hshow|]. split; [exact Hscore|].
    exists record. split; [exact Hem|]. split; assumption.
  - assert (Index.currentQuestionIndex (Index.state w)
            <> len (Index.currentQuestions (Index.state w)) - 1) as Hnot.
    { pose proof (len_nonneg rest).
      assert (len (b :: rest) = 1 + len rest) as Hb
        by (unfold len; cbn [length]; lia).
      lia. }
    destruct (answer_advances qbanks w a q Hwait Hq Hnot)
      as (Hwait' & Hidx & Hscore & Hqs & _ & Hem).
    specialize (IH (Index.step qbanks (Index.AnswerClick a) w) Hwait').
    cbv zeta in IH. rewrite Hidx, Hqs, Hscore, Hem in IH.
    destruct IH as (Hshow & Hfinal & record & Hrec & Hrs & Hrt);
      [lia | discriminate | lia |].
    split; [exact Hshow|]. split; [rewrite Hfinal; lia|].
    exists record. split; [exact Hrec|]. split; [rewrite Hrs; lia | exact Hrt].
Qed.

Lemma answering_through_witness :
  let w := Index.run [bank3]
             [Index.StartQuiz keepOrder "bank" 3 false false 60] (Index.boot 0) in
  let w' := Index.run [bank3] (Index.AnswerClick <$> [1; 1; 2]) w in
  Index.showScore (Index.state w') = true
  /\ (QuizHistory.score <$> Index.emitted w') = [2].
Proof.
  cbv zeta.
  pose (w := Index.run [bank3]
               [Index.StartQuiz keepOrder "bank" 3 false false 60]
               (Index.boot 0)).
  assert (awaitsAnswer (Index.state w)) as H1
    by (repeat split; vm_compute; reflexivity).
  assert (0 <= Index.currentQuestionIndex (Index.state w)) as H2
    by (vm_compute; discriminate).
  assert (Index.currentQuestionIndex (Index.state w) + len [1; 1; 2]
          = len (Index.currentQuestions (Index.state w))) as H4
    by (vm_compute; reflexivity).
  destruct (answering_through_finishes [bank3] [1; 1; 2] w H1 H2
              ltac:(discriminate) H4)
    as (Hshow & _ & record & Hem & Hscore & _).
  split; [exact Hshow|].
  change (Index.run [bank3] [Index.StartQuiz keepOrder "bank" 3 false false 60]
            (Index.boot 0)) with w.
  rewrite Hem.
  replace (Index.emitted w) with (@nil QuizHistory.t)
    by (vm_compute; reflexivity).
  cbn [app fmap list_fmap]. rewrite Hscore. vm_compute. reflexivity.
Defined.

(** In tutor mode a second answer in a row changes nothing: the page after
    two answer clicks is the page after the first. *)
Theorem tutor_answer_twice_is_once (qbanks : list QBank.t) (w : Index.Sys)
    (first second : Z) :
  Index.tutorMode (Index.state w) = true ->
  Index.step qbanks (Index.AnswerClick second)
    (Index.step qbanks (Index.AnswerClick first) w)
  = Index.step qbanks (Index.AnswerClick first) w.
Proof.
  intros Htutor. expose. subst. handler.
  destruct isAnswered, isPaused; handler; try reflexivity.
  destruct (index currentQuestions currentQuestionIndex) as [q|]; handler;
    [|reflexivity].
  destruct (first =? Question.correctAnswer q); handler; reflexivity.
Qed.

(** ** Invariants of the page *)

Ltac timer_case :=
  match goal with
  | |- context [filter _ []] => rewrite filter_nil
  | |- context [filter ?P [?t]] =>
      rewrite (filter_cons P t []), filter_nil; destruct (decide (P t))
  | |- context [if ?a =? ?b then _ else _] => destruct (Z.eqb_spec a b)
  end.

Lemma step_oneTimer (qbanks : list QBank.t) (e : Index.Event) (w : Index.Sys) :
  oneTimer w -> oneTimer (Index.step qbanks e w).
Proof.
  unfold oneTimer. expose. intros Hone.
  destruct timers as [|[h0 d0 c0] [|t' ts]]; [| |contradiction];
    cbn [Index.handle] in *.
  all: destruct e; handler; cbn [List.find Index.handle];
    repeat (first [timer_case | read_case]; handler;
            cbn [app Index.handle Index.closure] in *);
    try exact I; try reflexivity; try congruence; try assumption.
Qed.

Lemma run_oneTimer (qbanks : list QBank.t) (es : list Index.Event) :
  forall w : Index.Sys, oneTimer w -> oneTimer (Index.run qbanks es w).
Proof.
  induction es as [|e es IH]; intros w Hw; [exact Hw|].
  cbn [Index.run]. apply IH, step_oneTimer, Hw.
Qed.

(** Timeouts never pile up: whatever happens after the page is mounted,
    at most one timeout is pending, and the page holds its handle. *)
Theorem at_most_one_pending_timeout (qbanks : list QBank.t)
    (es : list Index.Event) (t : Z) :
  let w := Index.run qbanks es (Index.boot t) in
  (length (Index.timers w) <= 1)%nat
  /\ forall x, x ∈ Index.timers w ->
               Index.questionTimer (Index.state w) = Some (Index.handle x).
Proof.
  cbv zeta.
  assert (oneTimer (Index.run qbanks es (Index.boot t))) as Hone
    by (apply run_oneTimer; exact I).
  unfold oneTimer in Hone.
  destruct (Index.timers (Index.run qbanks es (Index.boot t)))
    as [|x [|y ys]]; [| |contradiction].
  - split; [cbn; lia|]. intros x Hx. apply elem_of_nil in Hx. destruct Hx.
  - split; [cbn; lia|]. intros z Hz. apply list_elem_of_singleton in Hz.
    subst z. exact Hone.
Qed.

(** Pausing cancels the pending timeout and resuming does not arm a new
    one: after pause and resume the page is as before, without timeout. *)
Theorem pause_cancels_resume_does_not_rearm (qbanks : list QBank.t)
    (es : list Index.Event) (t : Z) :
  let w := Index.run qbanks es (Index.boot t) in
  let paused := Index.step qbanks Index.Pause w in
  let resumed := Index.step qbanks Index.Pause paused in
  Index.timers paused = []
  /\ Index.isPaused (Index.state paused) = negb (Index.isPaused (Index.state w))
  /\ Index.timers resumed = []
  /\ Index.state resumed = Index.state w
  /\ Index.emitted resumed = Index.emitted w.
Proof.
  cbv zeta.
  assert (oneTimer (Index.run qbanks es (Index.boot t))) as Hone
    by (apply run_oneTimer; exact I).
  revert Hone. generalize (Index.run qbanks es (Index.boot t)). intros w.
  unfold oneTimer. expose. intros Hone.
  destruct timers as [|[h0 d0 c0] [|t' ts]]; [| |contradiction];
    cbn [Index.handle] in *; subst; handler;
    repeat (first [timer_case | read_case]; handler);
    cbn [Index.handle] in *; try congruence;
    rewrite ?negb_involutive; repeat split; reflexivity.
Qed.

Lemma Forall_filter_keep {A} (P : A -> Prop) (Q : A -> Prop)
    `{forall x, Decision (Q x)} (xs : list A) :
  Forall P xs -> Forall P (filter Q xs).
Proof.
  rewrite !Forall_forall. intros HP x Hx.
  apply list_elem_of_filter in Hx as [_ Hx]. apply HP, Hx.
Qed.

Lemma find_closure_score (h : Z) (timers : list Index.Timeout)
    (t : Index.Timeout) :
  Forall (fun t => 0 <= Index.score (Index.closure t)) timers ->
  List.find (fun t => Index.handle t =? h) timers = Some t ->
  0 <= Index.score (Index.closure t).
Proof.
  intros Hall Hfind. apply List.find_some in Hfind as [Hin _].
  rewrite Forall_forall in Hall. apply Hall, list_elem_of_In, Hin.
Qed.

Ltac sane_finish :=
  repeat match goal with
         | H : index ?l 0 = Some _ |- _ =>
             apply index_lt in H
         | H : List.find _ _ = Some _, F : Forall _ _ |- _ =>
             apply (find_closure_score _ _ _ F) in H;
             cbn [Index.closure Index.score] in H
         end;
  repeat split;
  rewrite ?Forall_app, ?Forall_singleton;
  repeat split;
  try (repeat apply Forall_filter_keep;
       match goal with F : Forall _ ?l |- Forall _ ?l => exact F end);
  cbn [Index.closure Index.score QuizHistory.score
       QuizHistory.totalQuestions];
  try assumption; try lia.

Lemma step_sane (qbanks : list QBank.t) (e : Index.Event) (w : Index.Sys) :
  sane w -> sane (Index.step qbanks e w).
Proof.
  unfold sane, plottable. expose. intros (Hidx & Hscore & Htimers & Hrecords).
  destruct e; handler;
    repeat (read_case; handler); sane_finish.
Qed.

Lemma run_sane (qbanks : list QBank.t) (es : list Index.Event) :
  forall w : Index.Sys, sane w -> sane (Index.run qbanks es w).
Proof.
  induction es as [|e es IH]; intros w Hw; [exact Hw|].
  cbn [Index.run]. apply IH, step_sane, Hw.
Qed.

Lemma boot_sane (t : Z) : sane (Index.boot t).
Proof. repeat split; cbn; try lia; constructor. Qed.

(** Whatever happens after the page is mounted, the question index and
    the score never go below 0, and every record handed to the history has
    a score that is not negative and a positive totalQuestions (so the
    chart's score / totalQuestions never divides by 0). *)
Theorem records_are_plottable (qbanks : list QBank.t) (es : list Index.Event)
    (t : Z) :
  let w := Index.run qbanks es (Index.boot t) in
  0 <= Index.currentQuestionIndex (Index.state w)
  /\ 0 <= Index.score (Index.state w)
  /\ Forall plottable (Index.emitted w).
Proof.
  cbv zeta.
  destruct (run_sane qbanks es (Index.boot t) (boot_sane t))
    as (Hidx & Hscore & _ & Hrecords).
  repeat split; assumption.
Qed.

(** ** The clicks of a session *)

(** No click of the question page or of the score card moves the page off
    the questions of the session. *)
Theorem clicks_keep_index_in_range (qbanks : list QBank.t) (e : Index.Event)
    (w : Index.Sys) :
  userEvent e = true ->
  onQuestion (Index.state w) ->
  onQuestion (Index.state (Index.step qbanks e w)).
Proof.
  unfold onQuestion. intros He Hon. expose.
  destruct e; try discriminate He; handler;
    repeat (read_case; handler); lia.
Qed.

Lemma clicks_keep_index_witness :
  onQuestion
    (Index.state
       (Index.step [bank2] (Index.Navigate Index.prev)
          (Index.run [bank2]
             [Index.StartQuiz keepOrder "bank" 2 false false 60;
              Index.AnswerClick 1] (Index.boot 0)))).
Proof.
  apply clicks_keep_index_in_range.
  - reflexivity.
  - split; vm_compute; [intros H; discriminate H | reflexivity].
Defined.

(** Quitting hands over exactly one record, with the score so far, the
    size of the session and no attempts, cancels the page's timeout and
    returns to the dashboard with the counters reset; on a session without
    questions it throws before anything is done. *)
Theorem quit_hands_over_and_resets (qbanks : list QBank.t) (w : Index.Sys) :
  let w' := Index.step qbanks Index.Quit w in
  (Index.currentQuestions (Index.state w) = [] -> w' = w)
  /\ (forall first rest,
        Index.currentQuestions (Index.state w) = first :: rest ->
        Index.emitted w'
        = Index.emitted w
          ++ [QuizHistory.mk (Index.now w) (Index.now w)
                (Index.score (Index.state w))
                (len (Index.currentQuestions (Index.state w)))
                (Question.qbankId first) None]
        /\ Index.inQuiz (Index.state w') = false
        /\ Index.currentQuestionIndex (Index.state w') = 0
        /\ Index.score (Index.state w') = 0
        /\ Index.showScore (Index.state w') = false
        /\ Index.selectedAnswer (Index.state w') = None
        /\ Index.isAnswered (Index.state w') = false
        /\ Index.tutorMode (Index.state w') = false
        /\ Index.isPaused (Index.state w') = false
        /\ forall x, x ∈ Index.timers w' ->
                     Index.questionTimer (Index.state w)
                     <> Some (Index.handle x)).
Proof.
  cbv zeta. expose. split.
  - intros ->. handler. reflexivity.
  - intros first rest ->. handler. change (index (first :: rest) 0)
      with (Some first). handler.
    destruct questionTimer as [h|]; handler; repeat split; try reflexivity.
    + intros x Hx. apply list_elem_of_filter in Hx as [Hne _]. congruence.
    + intros x _. discriminate.
Qed.

(** "Next" of the navigation bar never ends the session: it emits no
    record, leaves score and score card alone, does nothing while the
    question is unanswered or is the last one, and otherwise moves one
    question forward with the selection cleared. *)
Theorem next_only_moves_forward (c : Index.State) (w : Index.Sys) :
  let w' := snd (QuizController.navigateNext c w) in
  Index.score (Index.state w') = Index.score (Index.state w)
  /\ Index.emitted w' = Index.emitted w
  /\ Index.showScore (Index.state w') = Index.showScore (Index.state w)
  /\ (Index.isAnswered c = false -> w' = w)
  /\ (Index.currentQuestionIndex c = len (Index.currentQuestions c) - 1 ->
      w' = w)
  /\ (Index.isAnswered c = true ->
      Index.currentQuestionIndex c < len (Index.currentQuestions c) - 1 ->
      Index.currentQuestionIndex (Index.state w')
        = Index.currentQuestionIndex (Index.state w) + 1
      /\ Index.selectedAnswer (Index.state w') = None
      /\ Index.isAnswered (Index.state w') = false).
Proof.
  cbv zeta. unfold QuizController.navigateNext, QuizController.clickNext,
    QuizController.nextDisabled, QuizController.propsOf.
  cbn [QuizController.currentQuestionIndex QuizController.totalQuestions
       QuizController.isAnswered].
  expose. handler.
  repeat (read_case; handler);
    repeat split; intros; try reflexivity; try lia; try congruence.
Qed.

(** On a freshly mounted page the timeout armed by a start is a closure of
    the render before the start: it runs for 60 s whatever time limit was
    chosen, and when it fires it sees the empty session of that render,
    without tutor mode and timer: the page moves to index 1 with nothing
    recorded, no explanation shown and no new timeout armed. *)
Theorem first_timeout_is_stale (qbanks : list QBank.t)
    (sortRandom : list Question.t -> list Question.t) (bankId : string)
    (bank : QBank.t) (questionCount : Z) (tutor : bool) (limit t : Z) :
  List.find (fun qb => String.eqb (QBank.id qb) bankId) qbanks = Some bank ->
  let w := Index.step qbanks
             (Index.StartQuiz sortRandom bankId questionCount tutor true limit)
             (Index.boot t) in
  let w' := Index.step qbanks (Index.TimerFires 1) w in
  Index.timePerQuestion (Index.state w) = limit
  /\ ((fun x => (Index.handle x, Index.delay x)) <$> Index.timers w)
     = [(1, 60000)]
  /\ Index.currentQuestionIndex (Index.state w') = 1
  /\ Index.currentQuestions (Index.state w')
     = slice0 questionCount (sortRandom (QBank.questions bank))
  /\ Index.isAnswered (Index.state w') = false
  /\ Index.showExplanation (Index.state w') = false
  /\ Index.tutorMode (Index.state w') = tutor
  /\ Index.score (Index.state w') = 0
  /\ Index.emitted w' = []
  /\ Index.timers w' = [].
Proof.
  intros Hfind w.
  assert (w = Index.mkSys
                (Index.mkState 0 0 false None false true
                   (slice0 questionCount (sortRandom (QBank.questions bank)))
                   tutor false false true limit (Some 1))
                [Index.mkTimeout 1 60000 Index.initial] 2 [] t) as ->.
  { subst w. unfold Index.boot, Index.initial. handler. rewrite Hfind.
    handler. reflexivity. }
  intros w'.
  assert (w' = Index.mkSys
                 (Index.mkState 1 0 false None false true
                    (slice0 questionCount (sortRandom (QBank.questions bank)))
                    tutor false false true limit (Some 1))
                 [] 2 [] t) as ->.
  { subst w'. unfold Index.initial. handler.
    cbn [List.find Index.handle Z.eqb Pos.eqb Index.closure].
    handler. cbn [len length Z.of_nat Z.sub Z.opp Z.add Z.eqb].
    handler. reflexivity. }
  repeat split.
Qed.

Lemma first_timeout_witness :
  let w := Index.step [bank2]
             (Index.StartQuiz keepOrder "bank" 2 true true 10) (Index.boot 0) in
  let w' := Index.step [bank2] (Index.TimerFires 1) w in
  Index.currentQuestionIndex (Index.state w') = 1
  /\ Index.showExplanation (Index.state w') = false
  /\ Index.timers w' = [].
Proof.
  destruct (first_timeout_is_stale [bank2] keepOrder "bank" bank2 2 true 10 0
              eq_refl)
    as (_ & _ & Hidx & _ & _ & Hexp & _ & _ & _ & Htimers).
  split; [exact Hidx|]. split; [exact Hexp | exact Htimers].
Defined.

(** ** Entering a session *)

Section Entering.
Variable qbanks : list QBank.t.
Variable sortRandom : list Question.t -> list Question.t.
Hypothesis sortRandom_permutes : forall qs, sortRandom qs ≡ₚ qs.

(** The page's start handler does nothing for a bank id that is not in the
    catalog.  For a bank of the catalog and a question count that is a
    whole number, 0 or more, it enters a session of min(questionCount,
    size of the bank) questions of that bank (asking for more than the
    bank holds gives the whole bank), on question 0 with score 0, nothing
    answered, not paused, in the modes passed, and hands nothing to the
    history. *)
Theorem start_enters_session (c : Index.State) (w : Index.Sys)
    (bankId : string) (questionCount : Z) (tutor timer : bool) (limit : Z) :
  0 <= questionCount ->
  let w' := snd (Index.handleStartQuiz qbanks sortRandom c bankId
                   questionCount tutor timer limit w) in
  match List.find (fun qb => String.eqb (QBank.id qb) bankId) qbanks with
  | None => w' = w
  | Some bank =>
      Index.inQuiz (Index.state w') = true
      /\ len (Index.currentQuestions (Index.state w'))
         = Z.min questionCount (len (QBank.questions bank))
      /\ (forall q, q ∈ Index.currentQuestions (Index.state w') ->
                    q ∈ QBank.questions bank)
      /\ Index.currentQuestionIndex (Index.state w') = 0
      /\ Index.score (Index.state w') = 0
      /\ Index.showScore (Index.state w') = false
      /\ Index.selectedAnswer (Index.state w') = None
      /\ Index.isAnswered (Index.state w') = false
      /\ Index.isPaused (Index.state w') = false
      /\ Index.tutorMode (Index.state w') = tutor
      /\ Index.timerEnabled (Index.state w') = timer
      /\ Index.timePerQuestion (Index.state w') = limit
      /\ Index.emitted w' = Index.emitted w
  end.
Proof.
  intros Hcount. cbv zeta. expose. handler.
  destruct (List.find _ qbanks) as [bank|]; handler; [|reflexivity].
  destruct timer, questionTimer; handler;
    rewrite slice0_take by lia;
    (split; [reflexivity|]); (split; [|split; [|repeat split]]).
  all: try (unfold len; rewrite length_take,
              (Permutation_length (sortRandom_permutes _)); lia).
  all: intros q Hq; apply (subseteq_take (Z.to_nat questionCount)) in Hq;
    rewrite sortRandom_permutes in Hq; exact Hq.
Qed.
End Entering.

Lemma start_enters_session_witness :
  len (Index.currentQuestions
         (Index.state
            (snd (Index.handleStartQuiz [bank2] keepOrder Index.initial "bank"
                    5 false false 60 (Index.boot 0)))))
  = 2.
Proof.
  pose proof (start_enters_session [bank2] keepOrder
                (fun qs => reflexivity qs) Index.initial (Index.boot 0) "bank"
                5 false false 60 ltac:(lia)) as H.
  cbv zeta in H. change (List.find _ [bank2]) with (Some bank2) in H.
  destruct H as (_ & Hlen & _). exact Hlen.
Defined.

(** One correct answer after a start: the score is 1. *)
Lemma run_score_witness :
  Index.score
    (Index.state
       (Index.run [bank2] [Index.AnswerClick 1; Index.Navigate Index.prev]
          (Index.run [bank2]
             [Index.StartQuiz keepOrder "bank" 2 false false 60]
             (Index.boot 0))))
  = 1.
Proof.
  rewrite run_score by (repeat constructor).
  vm_compute. reflexivity.
Defined.

(** ** The counts of the metrics *)

Lemma unused_sum (p : Question.t -> bool) (qbanks : list QBank.t) :
  forall acc,
    foldl (fun acc qbank => acc + len (List.filter p (QBank.questions qbank)))
      acc qbanks
    = acc + len (List.filter p (catalogQuestions qbanks)).
Proof.
  induction qbanks as [|qbank rest IH]; intros acc;
    cbn [foldl catalogQuestions flat_map].
  - unfold len. cbn [List.filter length]. lia.
  - rewrite IH, List.filter_app. fold (catalogQuestions rest).
    unfold len. rewrite length_app. lia.
Qed.

(** The metrics are computed exactly when every record of the history
    carries a list of attempts; one record without makes them throw. *)
Theorem metrics_defined_iff (qbanks : list QBank.t)
    (quizHistory : list QuizHistory.t) :
  is_Some (Dashboard.metrics qbanks quizHistory)
  <-> Forall hasAttempts quizHistory.
Proof.
  unfold Dashboard.metrics. split.
  - intros [m Hm].
    destruct (Dashboard.scanHistory quizHistory Dashboard.noSets)
      as [sets|] eqn:Hscan; [|discriminate Hm].
    eapply scanHistory_attempts, Hscan.
  - intros Hall. rewrite (scanHistory_total _ _ Hall).
    cbn [mbind option_bind]. eexists. reflexivity.
Qed.

Lemma scan_inclusions (attempts : list QuestionAttempt.t) :
  let sets := foldl Dashboard.scanAttempt Dashboard.noSets attempts in
  Dashboard.omittedQuestionIds sets ⊆ Dashboard.incorrectQuestionIds sets
  /\ Dashboard.incorrectQuestionIds sets ⊆ Dashboard.seenQuestionIds sets
  /\ Dashboard.correctQuestionIds sets ⊆ Dashboard.seenQuestionIds sets
  /\ Dashboard.seenQuestionIds sets
     ⊆ Dashboard.correctQuestionIds sets ∪ Dashboard.incorrectQuestionIds sets.
Proof.
  cbv zeta.
  assert (forall i : Z, i ∉ (∅ : gset Z)) as Hempty
    by (intros i; apply not_elem_of_empty).
  repeat split; intros i;
    destruct (scan_sets attempts i Dashboard.noSets)
      as (Hseen & Hcorrect & Hincorrect & Homitted);
    cbv zeta in Hseen, Hcorrect, Hincorrect, Homitted;
    cbn [Dashboard.noSets Dashboard.seenQuestionIds
         Dashboard.correctQuestionIds Dashboard.incorrectQuestionIds
         Dashboard.omittedQuestionIds] in Hseen, Hcorrect, Hincorrect, Homitted;
    rewrite ?elem_of_union, ?Hseen, ?Hcorrect, ?Hincorrect, ?Homitted.
  - intros [H|(a & Hin & Hid & Hnone)]; [destruct (Hempty _ H)|].
    right. exists a. auto.
  - intros [H|(a & Hin & Hid & _)]; [destruct (Hempty _ H)|].
    right. exists a. auto.
  - intros [H|(a & Hin & Hid & _)]; [destruct (Hempty _ H)|].
    right. exists a. auto.
  - intros [H|(a & Hin & Hid)]; [destruct (Hempty _ H)|].
    destruct (QuestionAttempt.selectedAnswer a) as [n|] eqn:Hsel.
    + destruct (QuestionAttempt.isCorrect a) eqn:Hok.
      * left. right. exists a. repeat split; try assumption. congruence.
      * right. right. exists a. auto.
    + right. right. exists a. auto.
Qed.

Lemma size_list_to_set_le (ids : list Z) :
  (size (list_to_set ids : gset Z) <= length ids)%nat.
Proof.
  induction ids as [|i ids IH]; cbn [list_to_set length].
  - rewrite size_empty. lia.
  - rewrite size_union_alt, size_singleton.
    pose proof (subseteq_size (list_to_set ids ∖ {[i]}) (list_to_set ids : gset Z)
                  ltac:(apply subseteq_difference_l; reflexivity)).
    lia.
Qed.

(** Whenever the metrics are computed, the counts are ordered as the
    categories are nested: omitted <= incorrect <= used, correct <= used,
    used <= correct + incorrect, and unused and marked count catalog
    questions (marked at most the questions whose flag is set). *)
Theorem metrics_counts_are_nested (qbanks : list QBank.t)
    (quizHistory : list QuizHistory.t) (m : Dashboard.Metrics) :
  Dashboard.metrics qbanks quizHistory = Some m ->
  0 <= Dashboard.omitted m <= Dashboard.incorrect m
  /\ Dashboard.incorrect m <= Dashboard.used m
  /\ 0 <= Dashboard.correct m <= Dashboard.used m
  /\ Dashboard.used m <= Dashboard.correct m + Dashboard.incorrect m
  /\ 0 <= Dashboard.unused m <= len (catalogQuestions qbanks)
  /\ 0 <= Dashboard.marked m
          <= len (List.filter Question.isMarked (catalogQuestions qbanks)).
Proof.
  unfold Dashboard.metrics. intros Hm.
  destruct (Dashboard.scanHistory quizHistory Dashboard.noSets)
    as [sets|] eqn:Hscan; [|discriminate Hm].
  cbn [mbind option_bind] in Hm. injection Hm as <-.
  cbn [Dashboard.omitted Dashboard.incorrect Dashboard.used Dashboard.correct
       Dashboard.unused Dashboard.marked].
  pose proof (scanHistory_attempts _ _ _ Hscan) as Hall.
  rewrite (scanHistory_total _ _ Hall) in Hscan. injection Hscan as <-.
  destruct (scan_inclusions (allAttempts quizHistory))
    as (Hoi & His & Hcs & Hsci).
  cbv zeta in Hoi, His, Hcs, Hsci.
  set (sets := foldl Dashboard.scanAttempt Dashboard.noSets
                 (allAttempts quizHistory)) in *.
  apply subseteq_size in Hoi, His, Hcs, Hsci.
  rewrite size_union_alt in Hsci.
  pose proof (subseteq_size
                (Dashboard.incorrectQuestionIds sets
                   ∖ Dashboard.correctQuestionIds sets)
                (Dashboard.incorrectQuestionIds sets)
                ltac:(apply subseteq_difference_l; reflexivity)) as Hdiff.
  rewrite unused_sum.
  pose proof (List.filter_length_le
                (fun q => negb (bool_decide
                                  (Question.id q ∈ Dashboard.seenQuestionIds sets)))
                (catalogQuestions qbanks)) as Hunused.
  assert (0 <= Dashboard.setSize
                 (if len quizHistory >? 0 then Dashboard.scanMarked qbanks else ∅)
          <= len (List.filter Question.isMarked (catalogQuestions qbanks)))
    as Hmarked.
  { destruct (len quizHistory >? 0); unfold Dashboard.setSize, len;
      (split; [lia|]).
    - rewrite scanMarked_catalog.
      pose proof (size_list_to_set_le
                    (Question.id
                       <$> List.filter Question.isMarked (catalogQuestions qbanks)))
        as Hle.
      rewrite length_fmap in Hle. lia.
    - rewrite size_empty. lia. }
  unfold Dashboard.setSize, len in *. lia.
Qed.

Lemma metrics_counts_witness :
  exists m,
    Dashboard.metrics [bank2]
      [sampleRecord [QuestionAttempt.mk 1 (Some 1) true;
                     QuestionAttempt.mk 2 None false]] = Some m
    /\ Dashboard.omitted m <= Dashboard.incorrect m <= Dashboard.used m.
Proof.
  eexists. split; [reflexivity|].
  pose proof (metrics_counts_are_nested [bank2]
                [sampleRecord [QuestionAttempt.mk 1 (Some 1) true;
                               QuestionAttempt.mk 2 None false]] _ eq_refl)
    as ((_ & H1) & H2 & _).
  split; assumption.
Defined.

Lemma seen_ids (attempts : list QuestionAttempt.t) (i : Z) :
  i ∈ Dashboard.seenQuestionIds
        (foldl Dashboard.scanAttempt Dashboard.noSets attempts)
  <-> exists a, In a attempts /\ QuestionAttempt.questionId a = i.
Proof.
  destruct (scan_sets attempts i Dashboard.noSets) as (Hseen & _).
  cbv zeta in Hseen. rewrite Hseen. cbn [Dashboard.noSets Dashboard.seenQuestionIds].
  split; [|intros H; right; exact H].
  intros [Hempty|H]; [|exact H]. apply not_elem_of_empty in Hempty.
  destruct Hempty.
Qed.

(** When question ids are unique in the catalog and every attempt of the
    history is an attempt at a catalog question, the used and the unused
    questions make up the catalog: unused + used is its size. *)
Theorem unused_plus_used_is_catalog (qbanks : list QBank.t)
    (quizHistory : list QuizHistory.t) :
  Forall hasAttempts quizHistory ->
  NoDup (Question.id <$> catalogQuestions qbanks) ->
  (forall a, In a (allAttempts quizHistory) ->
             exists q, In q (catalogQuestions qbanks)
                       /\ Question.id q = QuestionAttempt.questionId a) ->
  exists m,
    Dashboard.metrics qbanks quizHistory = Some m
    /\ Dashboard.unused m + Dashboard.used m = len (catalogQuestions qbanks).
Proof.
  intros Hall Hnodup Hknown. unfold Dashboard.metrics.
  rewrite (scanHistory_total _ _ Hall). cbn [mbind option_bind].
  eexists. split; [reflexivity|].
  cbn [Dashboard.unused Dashboard.used]. rewrite unused_sum.
  set (seen := Dashboard.seenQuestionIds
                 (foldl Dashboard.scanAttempt Dashboard.noSets
                    (allAttempts quizHistory))).
  set (p := fun q => bool_decide (Question.id q ∈ seen)).
  assert (seen = list_to_set
                   (Question.id <$> List.filter p (catalogQuestions qbanks)))
    as Hseen.
  { apply set_eq. intros i. rewrite elem_of_list_to_set, list_elem_of_fmap.
    split.
    - intros Hi. pose proof Hi as Hi'. apply seen_ids in Hi' as (a & Ha & <-).
      destruct (Hknown a Ha) as (q & Hq & Hid).
      exists q. split; [symmetry; exact Hid|].
      apply list_elem_of_In, List.filter_In. split; [exact Hq|].
      unfold p. rewrite Hid. apply bool_decide_eq_true, Hi.
    - intros (q & -> & Hq).
      apply list_elem_of_In, List.filter_In in Hq as [_ Hq].
      apply bool_decide_eq_true in Hq. exact Hq. }
  pose proof (size_list_to_set (C := gset Z) _
                (NoDup_fmap_filter Question.id p _ Hnodup)) as Hsize.
  rewrite <- Hseen, length_fmap in Hsize.
  pose proof (List.filter_length p (catalogQuestions qbanks)) as Hsplit.
  unfold Dashboard.setSize, len. subst p. cbv beta in *. lia.
Qed.

Lemma unused_plus_used_witness :
  exists m,
    Dashboard.metrics [bank2] [sampleRecord [QuestionAttempt.mk 1 (Some 1) true]]
    = Some m
    /\ Dashboard.unused m + Dashboard.used m = 2.
Proof.
  apply (unused_plus_used_is_catalog [bank2]
           [sampleRecord [QuestionAttempt.mk 1 (Some 1) true]]).
  - repeat constructor. eexists. reflexivity.
  - apply (bool_decide_unpack _). vm_compute. exact I.
  - intros a [<-|[]]. exists (sampleQuestion 1 1 false).
    split; [left; reflexivity | reflexivity].
Defined.

(** ** The history the page writes, read by the dashboard *)

Lemma attemptsOf_without (quiz : QuizHistory.t) (rest : list QuizHistory.t)
    (question : Question.t) :
  noAttempts quiz -> Dashboard.attemptsOf (quiz :: rest) question = None.
Proof. intros H. cbn [Dashboard.attemptsOf]. rewrite H. reflexivity. Qed.

Lemma filter_throws_on_question (quizHistory : list QuizHistory.t)
    (filters : QuestionFilter.t) (qbanks : list QBank.t) :
  (forall question, Dashboard.keeps quizHistory filters question = None) ->
  catalogQuestions qbanks <> [] ->
  mapM (fun qbank =>
          questions ← Dashboard.filterThrowing
                        (Dashboard.keeps quizHistory filters)
                        (QBank.questions qbank);
          Some (QBank.mk (QBank.id qbank) (QBank.name qbank)
                  (QBank.description qbank) questions)) qbanks
  = None.
Proof.
  intros Hkeeps. induction qbanks as [|qbank rest IH]; intros Hne;
    [contradiction|].
  cbn [mapM]. cbn [catalogQuestions flat_map] in Hne.
  destruct (QBank.questions qbank) as [|q qs] eqn:Hqs.
  - cbn [Dashboard.filterThrowing mbind option_bind].
    rewrite IH by exact Hne. reflexivity.
  - cbn [Dashboard.filterThrowing]. rewrite Hkeeps. reflexivity.
Qed.

(** The dashboard cannot read what the page writes: as soon as a run of
    the page has handed a record to the history, the metrics over that
    history throw, and so does the catalog filter when a filter is active
    and the catalog has a question. *)
Theorem page_records_break_the_dashboard (qbanks catalog : list QBank.t)
    (es : list Index.Event) (t : Z) (filters : QuestionFilter.t) :
  Index.emitted (Index.run qbanks es (Index.boot t)) <> [] ->
  let quizHistory := Index.emitted (Index.run qbanks es (Index.boot t)) in
  Dashboard.metrics catalog quizHistory = None
  /\ (Dashboard.anyFilter filters = true ->
      catalogQuestions catalog <> [] ->
      Dashboard.filteredQBanks catalog quizHistory filters = None).
Proof.
  intros Hne. cbv zeta.
  pose proof (run_emits_without_attempts qbanks es (Index.boot t)
                ltac:(constructor)) as Hnone.
  destruct (Index.emitted (Index.run qbanks es (Index.boot t)))
    as [|quiz rest]; [contradiction|].
  apply Forall_cons_1 in Hnone as [Hquiz _]. split.
  - unfold Dashboard.metrics. cbn [Dashboard.scanHistory].
    rewrite Hquiz. reflexivity.
  - intros Hany Hcat. unfold Dashboard.filteredQBanks. rewrite Hany.
    cbn [negb]. rewrite filter_throws_on_question; [reflexivity| |exact Hcat].
    intros question. unfold Dashboard.keeps.
    rewrite (attemptsOf_without _ _ _ Hquiz). reflexivity.
Qed.

Lemma page_records_witness :
  Dashboard.metrics [bank2]
    (Index.emitted
       (Index.run [bank2]
          [Index.StartQuiz keepOrder "bank" 2 false false 60; Index.Quit]
          (Index.boot 0)))
  = None.
Proof.
  apply (page_records_break_the_dashboard [bank2] [bank2]
           [Index.StartQuiz keepOrder "bank" 2 false false 60; Index.Quit] 0
           noFilter).
  vm_compute. discriminate.
Defined.

(** ** The filtered view *)

Lemma filterThrowing_Some {A} (p : A -> option bool) (xs : list A) :
  forall ys,
    Dashboard.filterThrowing p xs = Some ys ->
    (forall x, In x xs -> is_Some (p x))
    /\ ys = List.filter (fun x => bool_decide (p x = Some true)) xs.
Proof.
  induction xs as [|x xs IH]; intros ys Hys; cbn [Dashboard.filterThrowing] in Hys.
  - injection Hys as <-. split; [intros x []|reflexivity].
  - destruct (p x) as [b|] eqn:Hpx; [|discriminate Hys].
    destruct (Dashboard.filterThrowing p xs) as [kept|] eqn:Hkept;
      [|discriminate Hys].
    cbn [mbind option_bind] in Hys. injection Hys as <-.
    destruct (IH kept eq_refl) as [Hdef ->]. split.
    + intros y [<-|Hy]; [rewrite Hpx; eexists; reflexivity | apply Hdef, Hy].
    + cbn [List.filter]. rewrite Hpx. destruct b; reflexivity.
Qed.

Lemma filterThrowing_again {A} (p : A -> option bool) (xs ys : list A) :
  Dashboard.filterThrowing p xs = Some ys ->
  Dashboard.filterThrowing p ys = Some ys.
Proof.
  intros [Hdef ->]%filterThrowing_Some.
  induction xs as [|x xs IH]; [reflexivity|].
  cbn [List.filter].
  assert (forall y, In y xs -> is_Some (p y)) as Hrest
    by (intros y Hy; apply Hdef; right; exact Hy).
  destruct (bool_decide_reflect (p x = Some true)) as [Hx|Hx];
    [|apply IH, Hrest].
  cbn [Dashboard.filterThrowing]. rewrite Hx, (IH Hrest). reflexivity.
Qed.

(** What the filtered catalog shows when a filter is active: exactly the
    catalog questions for which the filter callback answers true. *)
Lemma shown_iff (qbanks filtered : list QBank.t)
    (quizHistory : list QuizHistory.t) (filters : QuestionFilter.t)
    (question : Question.t) :
  Dashboard.anyFilter filters = true ->
  Dashboard.filteredQBanks qbanks quizHistory filters = Some filtered ->
  In question (catalogQuestions filtered)
  <-> In question (catalogQuestions qbanks)
      /\ Dashboard.keeps quizHistory filters question = Some true.
Proof.
  intros Hany. unfold Dashboard.filteredQBanks. rewrite Hany. cbn [negb].
  revert filtered. induction qbanks as [|qbank rest IH]; intros filtered Hf.
  - cbn in Hf. injection Hf as <-. cbn. tauto.
  - cbn [mapM] in Hf.
    destruct (Dashboard.filterThrowing (Dashboard.keeps quizHistory filters)
                (QBank.questions qbank)) as [kept|] eqn:Hkept;
      [|discriminate Hf].
    cbn [mbind option_bind] in Hf.
    destruct (mapM _ rest) as [mapped|] eqn:Hmapped; [|discriminate Hf].
    cbn [mbind option_bind mret option_ret List.filter QBank.questions] in Hf.
    injection Hf as <-.
    specialize (IH _ eq_refl).
    apply filterThrowing_Some in Hkept as [_ ->].
    cbn [catalogQuestions flat_map]. fold (catalogQuestions rest).
    rewrite in_app_iff.
    set (kept := List.filter _ (QBank.questions qbank)).
    assert (In question kept
            <-> In question (QBank.questions qbank)
                /\ Dashboard.keeps quizHistory filters question = Some true)
      as Hkept.
    { unfold kept. rewrite List.filter_In, bool_decide_eq_true. reflexivity. }
    destruct (Z.gtb_spec (len kept) 0) as [Hpos|Hzero].
    + cbn [catalogQuestions flat_map QBank.questions].
      fold (catalogQuestions
              (List.filter (fun qb => len (QBank.questions qb) >? 0) mapped)).
      rewrite in_app_iff. tauto.
    + assert (kept = []) as Hnil.
      { destruct kept; [reflexivity|]. unfold len in Hzero.
        cbn [length] in Hzero. lia. }
      rewrite Hnil in Hkept. cbn [In] in Hkept. tauto.
Qed.

Lemma keeps_more (quizHistory : list QuizHistory.t) (f g : QuestionFilter.t)
    (question : Question.t) :
  filtersWithin f g ->
  Dashboard.keeps quizHistory f question = Some true ->
  Dashboard.keeps quizHistory g question = Some true.
Proof.
  intros Hfg. unfold Dashboard.keeps.
  destruct (Dashboard.attemptsOf quizHistory question) as [attempts|];
    [|discriminate].
  cbn [mbind option_bind]. intros Hf. injection Hf as Hf. f_equal.
  pose proof (Hfg Dashboard.keyUnused) as Hu. pose proof (Hfg Dashboard.keyUsed) as Hs.
  pose proof (Hfg Dashboard.keyIncorrect) as Hi. pose proof (Hfg Dashboard.keyCorrect) as Hc.
  pose proof (Hfg Dashboard.keyMarked) as Hm. pose proof (Hfg Dashboard.keyOmitted) as Ho.
  cbn [Dashboard.filterAt] in Hu, Hs, Hi, Hc, Hm, Ho.
  rewrite !orb_true_iff, !andb_true_iff in Hf |- *. tauto.
Qed.

Lemma anyFilter_more (f g : QuestionFilter.t) :
  filtersWithin f g ->
  Dashboard.anyFilter f = true -> Dashboard.anyFilter g = true.
Proof.
  intros Hfg. unfold Dashboard.anyFilter.
  pose proof (Hfg Dashboard.keyUnused) as Hu. pose proof (Hfg Dashboard.keyUsed) as Hs.
  pose proof (Hfg Dashboard.keyIncorrect) as Hi. pose proof (Hfg Dashboard.keyCorrect) as Hc.
  pose proof (Hfg Dashboard.keyMarked) as Hm. pose proof (Hfg Dashboard.keyOmitted) as Ho.
  cbn [Dashboard.filterAt] in Hu, Hs, Hi, Hc, Hm, Ho.
  rewrite !orb_true_iff. tauto.
Qed.

(** The guard of the filter is passed exactly when some key is on. *)
Lemma anyFilter_active (f : QuestionFilter.t) :
  Dashboard.anyFilter f = true <-> exists key, Dashboard.filterAt key f = true.
Proof.
  unfold Dashboard.anyFilter. rewrite !orb_true_iff. split.
  - intros [[[[[H|H]|H]|H]|H]|H].
    + exists Dashboard.keyUnused. exact H.
    + exists Dashboard.keyUsed. exact H.
    + exists Dashboard.keyIncorrect. exact H.
    + exists Dashboard.keyCorrect. exact H.
    + exists Dashboard.keyMarked. exact H.
    + exists Dashboard.keyOmitted. exact H.
  - intros [[] H]; cbn [Dashboard.filterAt] in H; tauto.
Qed.

(** The filters add up once one is on: when at least one filter is active,
    switching further filters on hides no question the filtered catalog
    showed.  (From no filter at all the whole catalog is shown, and a
    first filter can only hide.) *)
Theorem more_filters_show_more (qbanks shownF shownG : list QBank.t)
    (quizHistory : list QuizHistory.t) (f g : QuestionFilter.t) :
  (exists key, Dashboard.filterAt key f = true) ->
  filtersWithin f g ->
  Dashboard.filteredQBanks qbanks quizHistory f = Some shownF ->
  Dashboard.filteredQBanks qbanks quizHistory g = Some shownG ->
  forall question,
    In question (catalogQuestions shownF) ->
    In question (catalogQuestions shownG).
Proof.
  intros Hactive Hfg HF HG question Hin.
  apply anyFilter_active in Hactive as Hany.
  apply (shown_iff _ _ _ _ question Hany HF) in Hin as [Hcat Hkeeps].
  apply (shown_iff _ _ _ _ question (anyFilter_more _ _ Hfg Hany) HG).
  split; [exact Hcat | eapply keeps_more; eassumption].
Qed.

(** On [bank2], whose first question was answered correctly and whose
    second was omitted: the question shown under "correct" is still shown
    by the filter itself once "omitted" is switched on as well. *)
Lemma more_filters_witness :
  In (sampleQuestion 1 1 false)
     (catalogQuestions
        (default []
           (Dashboard.filteredQBanks [bank2]
              [sampleRecord [QuestionAttempt.mk 1 (Some 1) true;
                             QuestionAttempt.mk 2 None false]]
              (QuestionFilter.mk false false false true false true)))).
Proof.
  destruct (Dashboard.filteredQBanks [bank2]
              [sampleRecord [QuestionAttempt.mk 1 (Some 1) true;
                             QuestionAttempt.mk 2 None false]]
              (QuestionFilter.mk false false false true false true))
    as [shownG|] eqn:HG; [|vm_compute in HG; discriminate HG].
  cbn [default from_option].
  apply (more_filters_show_more [bank2]
           [sampleBank [sampleQuestion 1 1 false]] shownG
           [sampleRecord [QuestionAttempt.mk 1 (Some 1) true;
                          QuestionAttempt.mk 2 None false]]
           onlyCorrect
           (QuestionFilter.mk false false false true false true)).
  - exists Dashboard.keyCorrect. reflexivity.
  - intros key. destruct key; cbn; intros H; congruence.
  - vm_compute. reflexivity.
  - exact HG.
  - left. reflexivity.
Defined.

Lemma mapM_fixes {A} (g : A -> option A) (xs : list A) :
  Forall (fun x => g x = Some x) xs -> mapM g xs = Some xs.
Proof.
  induction 1 as [|x xs Hx _ IH]; [reflexivity|].
  cbn [mapM]. rewrite Hx, IH. reflexivity.
Qed.

Lemma Forall_List_filter {A} (P : A -> Prop) (p : A -> bool) (xs : list A) :
  Forall P xs -> Forall P (List.filter p xs).
Proof.
  induction 1 as [|x xs Hx _ IH]; [constructor|].
  cbn [List.filter]. destruct (p x); [constructor; assumption | exact IH].
Qed.

Lemma filter_again {A} (p : A -> bool) (xs : list A) :
  List.filter p (List.filter p xs) = List.filter p xs.
Proof.
  induction xs as [|x xs IH]; [reflexivity|].
  cbn [List.filter]. destruct (p x) eqn:Hx; [|exact IH].
  cbn [List.filter]. rewrite Hx, IH. reflexivity.
Qed.

Lemma List_filter_sublist {A} (p : A -> bool) (xs : list A) :
  List.filter p xs `sublist_of` xs.
Proof.
  induction xs as [|x xs IH]; [constructor|].
  cbn [List.filter]. destruct (p x); constructor; exact IH.
Qed.

(** Where the banks of the filtered catalog come from, filter active:
    each is a catalog bank restricted to the questions kept. *)
Lemma filtered_bank_origin (qbanks filtered : list QBank.t)
    (quizHistory : list QuizHistory.t) (filters : QuestionFilter.t) :
  Dashboard.anyFilter filters = true ->
  Dashboard.filteredQBanks qbanks quizHistory filters = Some filtered ->
  Forall (fun shown =>
            QBank.questions shown <> []
            /\ Dashboard.filterThrowing (Dashboard.keeps quizHistory filters)
                 (QBank.questions shown) = Some (QBank.questions shown)
            /\ exists qbank,
                 In qbank qbanks
                 /\ shown
                    = QBank.mk (QBank.id qbank) (QBank.name qbank)
                        (QBank.description qbank) (QBank.questions shown)
                 /\ QBank.questions shown `sublist_of` QBank.questions qbank)
         filtered.
Proof.
  intros Hany. unfold Dashboard.filteredQBanks. rewrite Hany. cbn [negb].
  revert filtered. induction qbanks as [|qbank rest IH]; intros filtered Hf.
  - cbn in Hf. injection Hf as <-. constructor.
  - cbn [mapM] in Hf.
    destruct (Dashboard.filterThrowing (Dashboard.keeps quizHistory filters)
                (QBank.questions qbank)) as [kept|] eqn:Hkept;
      [|discriminate Hf].
    cbn [mbind option_bind] in Hf.
    destruct (mapM _ rest) as [mapped|] eqn:Hmapped; [|discriminate Hf].
    cbn [mbind option_bind mret option_ret List.filter QBank.questions] in Hf.
    injection Hf as <-.
    specialize (IH _ eq_refl).
    assert (Forall
              (fun shown =>
                 QBank.questions shown <> []
                 /\ Dashboard.filterThrowing
                      (Dashboard.keeps quizHistory filters)
                      (QBank.questions shown) = Some (QBank.questions shown)
                 /\ exists qbank0,
                      In qbank0 (qbank :: rest)
                      /\ shown
                         = QBank.mk (QBank.id qbank0) (QBank.name qbank0)
                             (QBank.description qbank0) (QBank.questions shown)
                      /\ QBank.questions shown `sublist_of` QBank.questions qbank0)
              (List.filter (fun qb => len (QBank.questions qb) >? 0) mapped))
      as Hrest.
    { eapply Forall_impl; [exact IH|].
      intros shown (Hne & Hfix & qbank0 & Hin & Heq & Hsub).
      repeat split; try assumption. exists qbank0.
      repeat split; try assumption. right. exact Hin. }
    destruct (Z.gtb_spec (len kept) 0) as [Hpos|Hzero]; [|exact Hrest].
    constructor; [|exact Hrest]. cbn [QBank.questions].
    split; [intros ->; unfold len in Hpos; cbn in Hpos; lia|].
    split; [eapply filterThrowing_again, Hkept|].
    exists qbank. split; [left; reflexivity|]. split; [reflexivity|].
    apply filterThrowing_Some in Hkept as [_ ->]. apply List_filter_sublist.
Qed.

(** Filtering is idempotent: the filtered catalog, filtered again with the
    same filters over the same history, is itself. *)
Theorem filtering_twice_is_once (qbanks filtered : list QBank.t)
    (quizHistory : list QuizHistory.t) (filters : QuestionFilter.t) :
  Dashboard.filteredQBanks qbanks quizHistory filters = Some filtered ->
  Dashboard.filteredQBanks filtered quizHistory filters = Some filtered.
Proof.
  intros Hf. destruct (Dashboard.anyFilter filters) eqn:Hany.
  - pose proof (filtered_bank_origin _ _ _ _ Hany Hf) as Horigin.
    unfold Dashboard.filteredQBanks. rewrite Hany. cbn [negb].
    rewrite mapM_fixes.
    + cbn [mbind option_bind]. f_equal. clear Hf.
      induction Horigin as [|shown more (Hne & _) _ IH]; [reflexivity|].
      cbn [List.filter]. rewrite IH.
      destruct (Z.gtb_spec (len (QBank.questions shown)) 0); [reflexivity|].
      destruct (QBank.questions shown); [contradiction|].
      unfold len in *. cbn [length] in *. lia.
    + eapply Forall_impl; [exact Horigin|].
      intros shown (_ & Hfix & qbank & _ & Heq & _).
      rewrite Hfix. cbn [mbind option_bind]. f_equal.
      clear. destruct shown. reflexivity.
  - unfold Dashboard.filteredQBanks. rewrite Hany. reflexivity.
Qed.

(** The filtered catalog is part of the catalog: each of its banks is a
    catalog bank with the same id, name and description whose questions
    are a sub-sequence of that bank's, in the same order, and with a
    filter active none of its banks is empty. *)
Theorem filtered_view_is_part_of_catalog (qbanks filtered : list QBank.t)
    (quizHistory : list QuizHistory.t) (filters : QuestionFilter.t)
    (shown : QBank.t) :
  Dashboard.filteredQBanks qbanks quizHistory filters = Some filtered ->
  In shown filtered ->
  (Dashboard.anyFilter filters = true -> QBank.questions shown <> [])
  /\ exists qbank,
       In qbank qbanks
       /\ QBank.id shown = QBank.id qbank
       /\ QBank.name shown = QBank.name qbank
       /\ QBank.description shown = QBank.description qbank
       /\ QBank.questions shown `sublist_of` QBank.questions qbank.
Proof.
  intros Hf Hin. destruct (Dashboard.anyFilter filters) eqn:Hany.
  - pose proof (filtered_bank_origin _ _ _ _ Hany Hf) as Horigin.
    rewrite Forall_forall in Horigin.
    destruct (Horigin shown ltac:(apply list_elem_of_In; exact Hin))
      as (Hne & _ & qbank & Hq & Heq & Hsub).
    split; [intros _; exact Hne|]. exists qbank.
    rewrite Heq. cbn [QBank.id QBank.name QBank.description QBank.questions].
    repeat split; assumption.
  - unfold Dashboard.filteredQBanks in Hf. rewrite Hany in Hf.
    injection Hf as <-. split; [discriminate|].
    exists shown. repeat split; try reflexivity. exact Hin.
Qed.

Lemma filtering_twice_witness :
  Dashboard.filteredQBanks [sampleBank [sampleQuestion 2 0 true]] []
    onlyMarked
  = Some [sampleBank [sampleQuestion 2 0 true]].
Proof.
  apply (filtering_twice_is_once [markedBank]). vm_compute. reflexivity.
Defined.

Lemma filtered_view_witness :
  exists qbank,
    In qbank [markedBank]
    /\ QBank.questions (sampleBank [sampleQuestion 2 0 true])
         `sublist_of` QBank.questions qbank.
Proof.
  destruct (filtered_view_is_part_of_catalog [markedBank]
              [sampleBank [sampleQuestion 2 0 true]] [] onlyMarked
              (sampleBank [sampleQuestion 2 0 true]))
    as (_ & qbank & Hin & _ & _ & _ & Hsub).
  - vm_compute. reflexivity.
  - left. reflexivity.
  - exists qbank. split; assumption.
Defined.

Lemma tutor_answer_twice_witness :
  let w := Index.step [bank2]
             (Index.StartQuiz keepOrder "bank" 2 true false 60)
             (Index.boot 0) in
  Index.step [bank2] (Index.AnswerClick 0)
    (Index.step [bank2] (Index.AnswerClick 1) w)
  = Index.step [bank2] (Index.AnswerClick 1) w.
Proof.
  cbv zeta. apply tutor_answer_twice_is_once. vm_compute. reflexivity.
Defined.

(** The filter toggles are switches: a toggle flips its own filter and no
    other, toggling twice restores the filters, toggles of different
    filters commute, and the first toggle on the initial filters
    activates filtering. *)
Theorem toggles_are_switches (key other : Dashboard.FilterKey)
    (filters : QuestionFilter.t) :
  Dashboard.filterAt key (Dashboard.toggleFilter key filters) = negb (Dashboard.filterAt key filters)
  /\ (other <> key ->
      Dashboard.filterAt other (Dashboard.toggleFilter key filters) = Dashboard.filterAt other filters)
  /\ Dashboard.toggleFilter key (Dashboard.toggleFilter key filters) = filters
  /\ Dashboard.toggleFilter key (Dashboard.toggleFilter other filters)
     = Dashboard.toggleFilter other (Dashboard.toggleFilter key filters)
  /\ Dashboard.anyFilter (Dashboard.toggleFilter key noFilter) = true.
Proof.
  destruct filters as [u s i c m o].
  repeat split; try (intros Hne);
    destruct key, other; cbn; rewrite ?negb_involutive;
    try reflexivity; congruence.
Qed.

(** ** From the dashboard's button to the session *)

Lemma find_by_id (qbanks : list QBank.t) (qbank : QBank.t) :
  NoDup (QBank.id <$> qbanks) ->
  In qbank qbanks ->
  List.find (fun qb => String.eqb (QBank.id qb) (QBank.id qbank)) qbanks
  = Some qbank.
Proof.
  induction qbanks as [|first rest IH]; intros Hnodup Hin; [destruct Hin|].
  cbn [fmap list_fmap] in Hnodup. apply NoDup_cons in Hnodup as [Hfirst Hrest].
  cbn [List.find].
  destruct (String.eqb_spec (QBank.id first) (QBank.id qbank)) as [Heq|Hne].
  - destruct Hin as [->|Hin]; [reflexivity|]. exfalso. apply Hfirst.
    rewrite Heq. apply list_elem_of_fmap. exists qbank.
    split; [reflexivity | apply list_elem_of_In, Hin].
  - destruct Hin as [->|Hin]; [contradiction|]. apply IH; assumption.
Qed.

Lemma handleStartQuiz_enters (qbanks : list QBank.t)
    (sortRandom : list Question.t -> list Question.t) (c : Index.State)
    (w : Index.Sys) (bankId : string) (bank : QBank.t) (questionCount : Z)
    (tutor timer : bool) (limit : Z) :
  List.find (fun qb => String.eqb (QBank.id qb) bankId) qbanks = Some bank ->
  Index.inQuiz
    (Index.state
       (snd (Index.handleStartQuiz qbanks sortRandom c bankId questionCount
               tutor timer limit w))) = true.
Proof.
  intros Hfind. expose. handler. rewrite Hfind. handler.
  destruct timer, questionTimer; handler; reflexivity.
Qed.

Section FromDashboard.
Variable qbanks : list QBank.t.
Variable sortRandom : list Question.t -> list Question.t.
Hypothesis sortRandom_permutes : forall qs, sortRandom qs ≡ₚ qs.

(** With bank ids unique in the catalog, a start on a bank that is in the
    filtered catalog and whose id is not the empty string, with a question
    count that is a whole number between 1 and the number of its filtered
    questions, passes the dashboard's check and enters a session of
    exactly that many questions, all of them questions of the catalog's
    bank of that id. *)
Theorem dashboard_start_gives_questionCount (filtered : list QBank.t)
    (quizHistory : list QuizHistory.t) (filters : QuestionFilter.t)
    (d : Dashboard.Controls) (shown : QBank.t) (w : Index.Sys) :
  NoDup (QBank.id <$> qbanks) ->
  Dashboard.filteredQBanks qbanks quizHistory filters = Some filtered ->
  List.find (fun qb => String.eqb (QBank.id qb) (Dashboard.selectedQBank d))
    filtered = Some shown ->
  Dashboard.selectedQBank d <> "" ->
  1 <= Dashboard.questionCount d <= len (QBank.questions shown) ->
  let r := start qbanks sortRandom filtered d w in
  fst r = Dashboard.OnStartQuiz (Dashboard.selectedQBank d)
            (Dashboard.questionCount d) (Dashboard.tutorMode d)
            (Dashboard.timerEnabled d) (Dashboard.timeLimit d)
  /\ Index.inQuiz (Index.state (snd r)) = true
  /\ len (Index.currentQuestions (Index.state (snd r)))
     = Dashboard.questionCount d
  /\ exists qbank,
       In qbank qbanks
       /\ QBank.id qbank = Dashboard.selectedQBank d
       /\ forall q, q ∈ Index.currentQuestions (Index.state (snd r)) ->
                    q ∈ QBank.questions qbank.
Proof.
  intros Hnodup Hfiltered Hfind Hsel [Hlo Hhi].
  assert (exists qbank,
            In qbank qbanks /\ QBank.id qbank = Dashboard.selectedQBank d
            /\ QBank.questions shown `sublist_of` QBank.questions qbank)
    as (qbank & Hin & Hid & Hsub).
  { pose proof (List.find_some _ _ Hfind) as [Hshown Heq].
    apply String.eqb_eq in Heq.
    destruct (Dashboard.anyFilter filters) eqn:Hany.
    - pose proof (filtered_bank_origin _ _ _ _ Hany Hfiltered) as Horigin.
      rewrite Forall_forall in Horigin.
      destruct (Horigin shown ltac:(apply list_elem_of_In; exact Hshown))
        as (_ & _ & qbank & Hq & Hmk & Hsub).
      exists qbank. repeat split; try assumption.
      rewrite <- Heq, Hmk. reflexivity.
    - unfold Dashboard.filteredQBanks in Hfiltered. rewrite Hany in Hfiltered.
      injection Hfiltered as <-. exists shown.
      repeat split; [exact Hshown | exact Heq | reflexivity]. }
  pose proof (find_by_id qbanks qbank Hnodup Hin) as Hcatalog.
  rewrite Hid in Hcatalog.
  pose proof (sublist_length _ _ Hsub) as Hlen.
  cbv zeta. unfold start, Dashboard.handleStartQuiz, Dashboard.truthy.
  destruct (String.eqb_spec (Dashboard.selectedQBank d) "") as [|_];
    [contradiction|].
  destruct (Z.gtb_spec (Dashboard.questionCount d) 0); [|lia].
  cbn [negb andb]. rewrite Hfind. unfold Dashboard.exceeds.
  destruct (Z.gtb_spec (Dashboard.questionCount d)
              (len (QBank.questions shown))); [lia|].
  cbn [fst snd]. split; [reflexivity|].
  split; [eapply handleStartQuiz_enters, Hcatalog|].
  destruct (start_samples_the_catalog_bank qbanks sortRandom
              sortRandom_permutes (Index.state w) w
              (Dashboard.selectedQBank d) qbank (Dashboard.questionCount d)
              (Dashboard.tutorMode d) (Dashboard.timerEnabled d)
              (Dashboard.timeLimit d) Hcatalog)
    as (Hsize & Hfrom & _).
  { unfold len in *. lia. }
  split; [exact Hsize|]. exists qbank. repeat split; assumption.
Qed.
End FromDashboard.

Lemma dashboard_start_witness :
  len (Index.currentQuestions
         (Index.state
            (snd (start [markedBank] keepOrder
                    [sampleBank [sampleQuestion 2 0 true]]
                    (sampleControls "bank" 1) (Index.boot 0)))))
  = 1.
Proof.
  destruct (dashboard_start_gives_questionCount [markedBank] keepOrder
              (fun qs => reflexivity qs)
              [sampleBank [sampleQuestion 2 0 true]] [] onlyMarked
              (sampleControls "bank" 1) (sampleBank [sampleQuestion 2 0 true])
              (Index.boot 0))
    as (_ & _ & Hsize & _).
  - apply (bool_decide_unpack _). vm_compute. exact I.
  - vm_compute. reflexivity.
  - reflexivity.
  - discriminate.
  - vm_compute. split; intros H; discriminate H.
  - exact Hsize.
Defined.
